(** * nvwebtop: the sampling history, the sampler loop and the JSON
      endpoints of [app.py]

    The development embeds the parts of [app.py] that hold data or take
    decisions: the [history] dictionary and its update in
    [fetch_gpu_data], the text processing applied to the output of
    [nvidia-smi], and the three data endpoints [api_data], [api_stats]
    and [api_processes].  The HTML page served by [index] carries no
    logic and is left out. *)

From Stdlib Require Import ZArith QArith List String Ascii Bool Lia Sorted.
From Stdlib Require Import Relations.
From Stdlib Require Import Floats.SpecFloat.
Import ListNotations.

Local Open Scope string_scope.
Local Open Scope list_scope.

(** ** Python strings

    A [str] is modelled as a [string] whose characters are the code
    points below 256.  Only the methods the program calls are embedded:
    [str.strip()], [str.split(sep)] with a non-empty separator, the
    truth value of a string and [int(s)]. *)

Module PyStr.

(** [str.isspace] on one code point below 256: the ASCII controls
      9..13 and 28..31, the space, NEL (133) and the no-break space
      (160). *)
Definition is_space (c : ascii) : bool :=
    let n := nat_of_ascii c in
    (((9 <=? n) && (n <=? 13)) || ((28 <=? n) && (n <=? 32))
     || (n =? 133) || (n =? 160))%nat.

(** The white space that [int] accepts around a literal: as
      [is_space], without the separators 28..31. *)
Definition is_int_space (c : ascii) : bool :=
    let n := nat_of_ascii c in
    (((9 <=? n) && (n <=? 13)) || (n =? 32) || (n =? 133) || (n =? 160))%nat.

Section Strip.
Variable drop : ascii -> bool.

Fixpoint lstrip_with (s : string) : string :=
      match s with
      | String c r => if drop c then lstrip_with r else s
      | EmptyString => EmptyString
      end.

Fixpoint rstrip_with (s : string) : string :=
      match s with
      | EmptyString => EmptyString
      | String c r =>
          match rstrip_with r with
          | EmptyString => if drop c then EmptyString else String c EmptyString
          | r' => String c r'
          end
      end.

Definition strip_with (s : string) : string := rstrip_with (lstrip_with s).
End Strip.

(** [s.strip()] *)
Definition strip (s : string) : string := strip_with is_space s.

(** [bool(s)]: a string is true when it is not empty. *)
Definition truthy (s : string) : bool :=
    match s with
    | EmptyString => false
    | String _ _ => true
    end.

(** [split_from sep s skip] scans [s] from the left.  [skip] counts
      the characters of a separator occurrence that are still to be
      passed over, so the occurrences taken are the leftmost ones and do
      not overlap. *)
Fixpoint split_from (sep s : string) (skip : nat) : list string :=
    match s with
    | EmptyString => [EmptyString]
    | String c r =>
        match skip with
        | S k => split_from sep r k
        | O =>
            if prefix sep s
            then EmptyString :: split_from sep r (String.length sep - 1)
            else match split_from sep r 0 with
                 | w :: ws => String c w :: ws
                 | [] => [String c EmptyString]
                 end
        end
    end.

(** [s.split(sep)] for a non-empty [sep]. *)
Definition split (sep s : string) : list string := split_from sep s 0.

(** [sep.join(parts)] *)
Fixpoint join (sep : string) (parts : list string) : string :=
    match parts with
    | [] => EmptyString
    | [w] => w
    | w :: ws => w ++ sep ++ join sep ws
    end.

Definition is_digit (c : ascii) : bool :=
    let n := nat_of_ascii c in ((48 <=? n) && (n <=? 57))%nat.

Definition digit_value (c : ascii) : Z := Z.of_nat (nat_of_ascii c - 48).

(** The digit part of a base-10 literal: at least one digit, and an
      underscore only between two digits.  [after_digit] tells whether
      the character just read was a digit. *)
Fixpoint digits (s : string) (acc : Z) (after_digit : bool) : option Z :=
    match s with
    | EmptyString => if after_digit then Some acc else None
    | String c r =>
        if is_digit c then digits r (10 * acc + digit_value c) true
        else if Ascii.eqb c "_" then
               if after_digit then digits r acc false else None
        else None
    end.

(** [sys.int_max_str_digits]: the most digits [int] accepts in a
    literal.  The program leaves it at its default (CPython 3.11 and
    later). *)
Definition int_max_str_digits : nat := 4300.

(** The number of digits of a literal, which the limit is compared
    with: leading zeros count, underscores do not. *)
Fixpoint digit_count (s : string) : nat :=
  match s with
  | EmptyString => O
  | String c r => if is_digit c then S (digit_count r) else digit_count r
  end.

(** A literal without its sign: its digits, unless there are too many
    of them. *)
Definition literal (s : string) : option Z :=
  if (int_max_str_digits <? digit_count s)%nat then None
  else digits s 0 false.

(** [int(s)] in base 10: surrounding white space is dropped, one sign
    is allowed, then come the digits, [int_max_str_digits] of them at
    most.  [None] stands for the [ValueError] that Python raises. *)
Definition int (s : string) : option Z :=
  match strip_with is_int_space s with
  | String "-" r => option_map Z.opp (literal r)
  | String "+" r => literal r
  | t => literal t
  end.

End PyStr.

Definition nl : string := String (ascii_of_nat 10) EmptyString.

(** ** Python numbers

    An [int] is a [Z].  A [float] is an IEEE 754 binary64 number, taken
    from the specification of floating-point numbers of the standard
    library, with round-to-nearest-even. *)

Definition prec : Z := 53.
Definition emax : Z := 1024.

Definition float : Type := spec_float.

(** [float(z)], used for the literal [100] of [q * 100]. *)
Definition float_of_int (z : Z) : float := binary_normalize prec emax z 0 false.

(** [x * y] on floats: no exception, an overflow gives an infinity. *)
Definition float_mul (x y : float) : float := SFmul prec emax x y.

(** An [int] as the exact operand of a true division. *)
Definition exact_operand (z : Z) : float :=
  match z with
  | Z0 => S754_zero false
  | Zpos m => S754_finite false m 0
  | Zneg m => S754_finite true m 0
  end.

(** ** Exceptions and computations *)

(** The exceptions the embedded code can meet, all of them subclasses of
    [Exception].  [RunError] stands for whatever [subprocess.run] itself
    raises (the tool is absent, its output cannot be decoded), and
    [TimeoutExpired] for what it raises when a [timeout] runs out. *)
Inductive exn : Type :=
| IndexError
| ValueError
| ZeroDivisionError
| OverflowError
| TimeoutExpired
| RunError (what : string).

(** How a piece of code ends: with a value, with an exception, or not at
    all because it waits for ever. *)
Inductive result (A : Type) : Type :=
| Ok (a : A)
| Exc (e : exn)
| Stuck.

Arguments Ok {A} a.
Arguments Exc {A} e.
Arguments Stuck {A}.

(** Evaluation of a compound expression: left to right, stopping at the
    first part that does not give a value. *)
Definition and_then {A B : Type} (r : result A) (k : A -> result B) : result B :=
  match r with
  | Ok a => k a
  | Exc e => Exc e
  | Stuck => Stuck
  end.

Notation "'let*' x := r 'in' k" := (and_then r (fun x => k))
  (at level 10, x name, r at level 100, k at level 200).

(** [a / b] on two [int]s: the quotient correctly rounded to a float. *)
Definition int_truediv (a b : Z) : result float :=
  if (b =? 0)%Z then Exc ZeroDivisionError
  else match SFdiv prec emax (exact_operand a) (exact_operand b) with
       | S754_infinity _ => Exc OverflowError
       | q => Ok q
       end.

Arguments float_of_int : simpl never.
Arguments float_mul : simpl never.
Arguments int_truediv : simpl never.

(** [l[i]] for a non-negative index. *)
Definition item {A : Type} (l : list A) (i : nat) : result A :=
  match nth_error l i with
  | Some x => Ok x
  | None => Exc IndexError
  end.

Arguments PyStr.int : simpl never.

(** [int(s)] *)
Definition py_int (s : string) : result Z :=
  match PyStr.int s with
  | Some z => Ok z
  | None => Exc ValueError
  end.

(** [l[-n:]]: the last [n] elements, the whole list when it has fewer;
    and the whole list when [n] is 0, since [-0] is [0]. *)
Definition last_n {A : Type} (n : nat) (l : list A) : list A :=
  match n with
  | O => l
  | S _ => skipn (List.length l - n) l
  end.

(** ** The machine the program runs on *)

(** What the external tool does when it is started with a given command
    line: it ends after some seconds with a text on its standard output,
    it cannot be run at all, or it never ends. *)
Inductive tool : Type :=
| Exits (seconds : nat) (stdout : string)
| Fails (e : exn)
| Hangs.

Definition machine : Type := list string -> tool.

(** [subprocess.run(cmd, stdout=subprocess.PIPE, text=True, timeout=t)],
    giving [result.stdout].  The exit status is not looked at (there is
    no [check=True]).  With [timeout=None], which is the default, the
    call waits for the tool without limit. *)
Definition subprocess_run (m : machine) (cmd : list string)
    (timeout : option nat) : result string :=
  match m cmd, timeout with
  | Fails e, _ => Exc e
  | Exits _ out, None => Ok out
  | Exits d out, Some limit => if (limit <? d)%nat then Exc TimeoutExpired else Ok out
  | Hangs, None => Stuck
  | Hangs, Some _ => Exc TimeoutExpired
  end.

(** ** The shared state *)

(** The global [history]: a dictionary with three fixed keys, each bound
    to a list. *)
Record History : Type := mkHistory {
  timestamps : list float;
  gpu_util : list Z;
  used_mem_percent : list float
}.

(** The value [history] is bound to when the module is loaded. *)
Definition history : History := mkHistory [] [] [].

(** What the program leaves behind besides [history]: the lines it
    prints and the pauses it takes.  The text [str(e)] of an exception
    is kept as the exception itself. *)
Inductive event : Type :=
| Printed (text : string) (e : exn)
| Slept (seconds : nat).

Record World : Type := mkWorld {
  hist : History;
  trace : list event
}.

Definition world : World := mkWorld history [].

(** A statement: it reads and changes the world, and ends as a
    [result].  As in Python, what was changed before an exception stays
    changed. *)
Definition M (A : Type) : Type := World -> result A * World.

Definition ret {A : Type} (a : A) : M A := fun w => (Ok a, w).

Definition bind {A B : Type} (m : M A) (f : A -> M B) : M B :=
  fun w =>
    match m w with
    | (Ok a, w') => f a w'
    | (Exc e, w') => (Exc e, w')
    | (Stuck, w') => (Stuck, w')
    end.

(** An expression that has no effect on the world. *)
Definition pure {A : Type} (r : result A) : M A := fun w => (r, w).

(** [try: body  except Exception as e: handler] *)
Definition try_except {A : Type} (body : M A) (handler : exn -> M A) : M A :=
  fun w =>
    match body w with
    | (Exc e, w') => handler e w'
    | other => other
    end.

Declare Scope py_scope.
Delimit Scope py_scope with py.
Notation "x <- m ;; k" := (bind m (fun x => k))
  (at level 61, m at next level, right associativity) : py_scope.
Notation "m ;; k" := (bind m (fun _ => k))
  (at level 61, right associativity) : py_scope.
Local Open Scope py_scope.

Definition get_history : M History := fun w => (Ok (hist w), w).

Definition set_history (h : History) : M unit :=
  fun w => (Ok tt, mkWorld h (trace w)).

Definition emit (ev : event) : M unit :=
  fun w => (Ok tt, mkWorld (hist w) (trace w ++ [ev])).

(** [print(f"{text}{e}")] *)
Definition print (text : string) (e : exn) : M unit := emit (Printed text e).

(** [time.sleep(n)] *)
Definition sleep (n : nat) : M unit := emit (Slept n).

(** [history["timestamps"].append(t)] and its two siblings. *)
Definition append_timestamps (t : float) : M unit :=
  h <- get_history ;;
  set_history (mkHistory (timestamps h ++ [t]) (gpu_util h) (used_mem_percent h)).

Definition append_gpu_util (u : Z) : M unit :=
  h <- get_history ;;
  set_history (mkHistory (timestamps h) (gpu_util h ++ [u]) (used_mem_percent h)).

Definition append_used_mem_percent (p : float) : M unit :=
  h <- get_history ;;
  set_history (mkHistory (timestamps h) (gpu_util h) (used_mem_percent h ++ [p])).

(** [for key in history.keys(): history[key] = history[key][-cap:]],
    the keys coming in the order they were inserted. *)
Definition trim_history (cap : nat) : M unit :=
  (h <- get_history ;;
   set_history (mkHistory (last_n cap (timestamps h)) (gpu_util h) (used_mem_percent h))) ;;
  (h <- get_history ;;
   set_history (mkHistory (timestamps h) (last_n cap (gpu_util h)) (used_mem_percent h))) ;;
  (h <- get_history ;;
   set_history (mkHistory (timestamps h) (gpu_util h) (last_n cap (used_mem_percent h)))).

(** ** The sampler, [fetch_gpu_data] *)

Definition history_query : list string :=
  [ "nvidia-smi";
    "--query-gpu=utilization.gpu,memory.total,memory.used";
    "--format=csv,noheader,nounits" ].

(** [(used_mem / total_mem) * 100] *)
Definition percent (used_mem total_mem : Z) : result float :=
  let* q := int_truediv used_mem total_mem in
  Ok (float_mul q (float_of_int 100)).

Arguments percent : simpl never.

(** The lines under [# Update history] and [# Keep only the last 60 data
    points] of the loop body.  [cap] is the number of points kept; the
    program runs with [cap = 60] ([window] below).  [now] is what
    [time.time()] gives. *)
Definition update_history (cap : nat) (now : float) (gpu_util : Z)
    (used_mem_percent : float) : M unit :=
  append_timestamps now ;;
  append_gpu_util gpu_util ;;
  append_used_mem_percent used_mem_percent ;;
  h <- get_history ;;
  if (cap <? List.length (timestamps h))%nat then trim_history cap else ret tt.

(** The body of [try:] in the loop. *)
Definition sample (cap : nat) (m : machine) (now : float) : M unit :=
  stdout <- pure (subprocess_run m history_query None) ;;
  line <- pure (item (PyStr.split nl (PyStr.strip stdout)) 0) ;;
  let gpu_data := PyStr.split ", " line in
  field0 <- pure (item gpu_data 0) ;;
  gpu_util <- pure (py_int field0) ;;
  field1 <- pure (item gpu_data 1) ;;
  total_mem <- pure (py_int field1) ;;
  field2 <- pure (item gpu_data 2) ;;
  used_mem <- pure (py_int field2) ;;
  used_mem_percent <- pure (percent used_mem total_mem) ;;
  update_history cap now gpu_util used_mem_percent.

Definition error_line : string := "Error fetching GPU data: ".

(** One turn of [while True:]. *)
Definition iteration (cap : nat) (m : machine) (now : float) : M unit :=
  try_except (sample cap m now)
             (fun e => print error_line e) ;;
  sleep 1.

(** [fetch_gpu_data()] over the first turns of its loop, which never
    ends by itself: each turn is given the machine as it is then and the
    time the clock shows. *)
Fixpoint fetch_gpu_data_turns (cap : nat) (turns : list (machine * float)) : M unit :=
  match turns with
  | [] => ret tt
  | (m, now) :: rest => iteration cap m now ;; fetch_gpu_data_turns cap rest
  end.

(** The number of points the program keeps. *)
Definition window : nat := 60.


(** ** The endpoints *)

(** The values that go into a JSON answer. *)
Inductive value : Type :=
| VInt (z : Z)
| VFloat (x : float)
| VStr (s : string)
| VText (e : exn).   (* [str(e)] *)

(** A dictionary literal, its keys in the order they are written. *)
Definition dict : Type := list (string * value).

Definition processes_query : list string :=
  [ "nvidia-smi";
    "--query-compute-apps=pid,process_name,used_memory";
    "--format=csv,noheader,nounits" ].

(** The list comprehension of [fetch_gpu_processes]. *)
Fixpoint process_entries (processes : list string) : result (list dict) :=
  match processes with
  | [] => Ok []
  | p :: rest =>
      if PyStr.truthy p then
        let* pid := item (PyStr.split ", " p) 0 in
        let* name := item (PyStr.split ", " p) 1 in
        let* used_memory := item (PyStr.split ", " p) 2 in
        let* entries := process_entries rest in
        Ok ([ ("pid", VStr pid); ("name", VStr name);
              ("used_memory", VStr used_memory) ] :: entries)
      else process_entries rest
  end.

Definition processes_error_line : string := "Error fetching GPU processes: ".

Definition fetch_gpu_processes (m : machine) : M (list dict) :=
  try_except
    (stdout <- pure (subprocess_run m processes_query None) ;;
     let processes := PyStr.split nl (PyStr.strip stdout) in
     pure (process_entries processes))
    (fun e => print processes_error_line e ;; ret []).

(** [api_data()], before [jsonify]. *)
Definition api_data : M History := get_history.

Definition stats_query : list string :=
  [ "nvidia-smi";
    "--query-gpu=utilization.gpu,memory.total,memory.used,memory.free,temperature.gpu";
    "--format=csv,noheader,nounits" ].

(** [api_stats()], before [jsonify]. *)
Definition api_stats (m : machine) : M dict :=
  try_except
    (stdout <- pure (subprocess_run m stats_query None) ;;
     line <- pure (item (PyStr.split nl (PyStr.strip stdout)) 0) ;;
     let gpu_data := PyStr.split ", " line in
     gpu_util <- pure (item gpu_data 0) ;;
     field1 <- pure (item gpu_data 1) ;;
     total_mem <- pure (py_int field1) ;;
     field2 <- pure (item gpu_data 2) ;;
     used_mem <- pure (py_int field2) ;;
     free_mem <- pure (item gpu_data 3) ;;
     temperature <- pure (item gpu_data 4) ;;
     used_mem_percent <- pure (percent used_mem total_mem) ;;
     ret [ ("gpu_util", VStr gpu_util);
           ("used_mem_percent", VFloat used_mem_percent);
           ("total_mem", VInt total_mem);
           ("used_mem", VInt used_mem);
           ("free_mem", VStr free_mem);
           ("temperature", VStr temperature) ])
    (fun e => ret [ ("error", VText e) ]).

(** [api_processes()], before [jsonify]. *)
Definition api_processes (m : machine) : M (list dict) := fetch_gpu_processes m.

(** ** The general information, [fetch_gpu_general_info] *)

Definition info_query : list string :=
  [ "nvidia-smi";
    "--query-gpu=name,driver_version";
    "--format=csv,noheader,nounits" ].

Definition info_error_line : string := "Error fetching GPU general information: ".

(** The whole output is cut at [", "]; it is not cut into lines. *)
Definition fetch_gpu_general_info (m : machine) : M dict :=
  try_except
    (stdout <- pure (subprocess_run m info_query None) ;;
     let gpu_info := PyStr.split ", " (PyStr.strip stdout) in
     name <- pure (item gpu_info 0) ;;
     driver_version <- pure (item gpu_info 1) ;;
     ret [ ("name", VStr name); ("driver_version", VStr driver_version) ])
    (fun e =>
       print info_error_line e ;;
       ret [ ("name", VStr "Unknown"); ("driver_version", VStr "Unknown") ]).

(** ** The script of the page: the colours of the table of statistics

    A JavaScript number is a [float].  [a >= b] is the comparison of
    IEEE 754, false as soon as one side is NaN; it is taken from the
    standard library, whose comparison reads a float in its canonical
    form. *)

Definition js_ge (a b : float) : bool := SFleb b a.

(** [getColorForMem(m)]: [m] is the number [used_mem_percent]. *)
Definition getColorForMem (m : float) : string :=
  if js_ge m (float_of_int 80) then "red"
  else if js_ge m (float_of_int 50) then "orange"
  else "green".

Section ParseFloat.

(** The built-in [parseFloat], from a text to a number or NaN. *)
Variable parseFloat : string -> float.

(** [getColorForUtil(u)]: [u] is the text [gpu_util]. *)
Definition getColorForUtil (u : string) : string :=
  let val := parseFloat u in
  if js_ge val (float_of_int 80) then "red"
  else if js_ge val (float_of_int 50) then "orange"
  else "green".

(** [getColorForTemp(t)]: [t] is the text [temperature]. *)
Definition getColorForTemp (t : string) : string :=
  let val := parseFloat t in
  if js_ge val (float_of_int 85) then "red"
  else if js_ge val (float_of_int 70) then "orange"
  else "green".

End ParseFloat.

(** * Views of the program used to state its properties

    Nothing here is code of [app.py]: these definitions name the samples
    of a history, the conditions under which a turn or a request fails,
    the pure part of each [try:] body, and the worlds the program can
    reach. *)

(** [s[k:]] *)
Fixpoint drop (k : nat) (s : string) : string :=
  match k, s with
  | S k', String _ r => drop k' r
  | _, _ => s
  end.

(** One sample: what one successful turn of the loop adds. *)
Record Sample : Type := mkSample {
  at_time : float;
  util : Z;
  mem_percent : float
}.

(** The samples of a history, oldest first: index [i] of the three lists
    taken together. *)
Fixpoint rows (ts : list float) (us : list Z) (ps : list float) : list Sample :=
  match ts, us, ps with
  | t :: ts', u :: us', p :: ps' => mkSample t u p :: rows ts' us' ps'
  | _, _, _ => []
  end.

Definition samples (h : History) : list Sample :=
  rows (timestamps h) (gpu_util h) (used_mem_percent h).

Definition columns (xs : list Sample) : History :=
  mkHistory (map at_time xs) (map util xs) (map mem_percent xs).

(** The three lists have one length. *)
Definition parallel (h : History) : Prop :=
  List.length (timestamps h) = List.length (gpu_util h) /\
  List.length (gpu_util h) = List.length (used_mem_percent h).

(** No list is longer than [cap]. *)
Definition bounded (cap : nat) (h : History) : Prop :=
  (List.length (timestamps h) <= cap)%nat /\
  (List.length (gpu_util h) <= cap)%nat /\
  (List.length (used_mem_percent h) <= cap)%nat.

Definition pushed (h : History) (s : Sample) : History :=
  mkHistory (timestamps h ++ [at_time s]) (gpu_util h ++ [util s])
            (used_mem_percent h ++ [mem_percent s]).

Definition trimmed (cap : nat) (h : History) : History :=
  mkHistory (last_n cap (timestamps h)) (last_n cap (gpu_util h))
            (last_n cap (used_mem_percent h)).

Definition stored (cap : nat) (h : History) (s : Sample) : History :=
  if (cap <? List.length (timestamps (pushed h s)))%nat
  then trimmed cap (pushed h s)
  else pushed h s.

(** The first line of the tool's answer, and its fields. *)
Definition first_line (stdout : string) : string :=
  hd EmptyString (PyStr.split nl (PyStr.strip stdout)).

Definition fields (stdout : string) : list string :=
  PyStr.split ", " (first_line stdout).

(** The part of the loop body that comes before the first change of
    [history]: it gives the utilisation and the percentage, or fails. *)
Definition reading (m : machine) : result (Z * float) :=
  let* stdout := subprocess_run m history_query None in
  let gpu_data := fields stdout in
  let* field0 := item gpu_data 0 in
  let* gpu_util := py_int field0 in
  let* field1 := item gpu_data 1 in
  let* total_mem := py_int field1 in
  let* field2 := item gpu_data 2 in
  let* used_mem := py_int field2 in
  let* used_mem_percent := percent used_mem total_mem in
  Ok (gpu_util, used_mem_percent).

(** The statements of the [for] loop of lines 50-51, one for each key. *)
Definition trim_timestamps (cap : nat) : M unit :=
  h <- get_history ;;
  set_history (mkHistory (last_n cap (timestamps h)) (gpu_util h) (used_mem_percent h)).

Definition trim_gpu_util (cap : nat) : M unit :=
  h <- get_history ;;
  set_history (mkHistory (timestamps h) (last_n cap (gpu_util h)) (used_mem_percent h)).

Definition trim_used_mem_percent (cap : nat) : M unit :=
  h <- get_history ;;
  set_history (mkHistory (timestamps h) (gpu_util h) (last_n cap (used_mem_percent h))).









(** A text of [n] times the character [c]. *)
Fixpoint run_of (n : nat) (c : ascii) : string :=
  match n with
  | O => EmptyString
  | S k => String c (run_of k c)
  end.

(** [sep] occurs in [s]. *)
Definition occurs (sep s : string) : Prop :=
  exists a b, s = (a ++ sep ++ b)%string.

(** The exact value of a float that is a number. *)
Definition float_value (x : float) : option Q :=
  match x with
  | S754_zero _ => Some 0%Q
  | S754_finite s m e =>
      let n := if s then Zneg m else Zpos m in
      Some (match e with
            | Z0 => inject_Z n
            | Zpos k => inject_Z (n * 2 ^ Zpos k)
            | Zneg k => (n # (2 ^ k))%Q
            end)
  | _ => None
  end.

(** The floats 100.0 and 50.0, sign, mantissa and exponent. *)
Definition hundred : float := S754_finite false 7036874417766400 (-46).
Definition fifty : float := S754_finite false 7036874417766400 (-47).

(** The update of the history for each sample of a list, in order. *)
Fixpoint update_all (cap : nat) (xs : list Sample) : M unit :=
  match xs with
  | [] => ret tt
  | s :: rest =>
      update_history cap (at_time s) (util s) (mem_percent s) ;;
      update_all cap rest
  end.

(** Samples at the times 1, 2, 3, 4, ... for the examples. *)
Definition sample_at (n : Z) : Sample := mkSample (float_of_int n) n (float_of_int 0).

(** An answer of the tool that the loop body cannot use: a field is
    missing, one of the three fields is not a number, or the total is
    zero. *)
Inductive malformed (stdout : string) : Prop :=
| missing_field :
    (List.length (fields stdout) < 3)%nat -> malformed stdout
| non_numeric_field i f :
    (i < 3)%nat -> nth_error (fields stdout) i = Some f ->
    PyStr.int f = None -> malformed stdout
| zero_total f :
    nth_error (fields stdout) 1 = Some f -> PyStr.int f = Some 0%Z ->
    malformed stdout.


(** The dictionary [api_stats] answers with when nothing fails. *)
Definition stats (gpu_util : string) (used_mem_percent : float)
    (total_mem used_mem : Z) (free_mem temperature : string) : dict :=
  [ ("gpu_util", VStr gpu_util);
    ("used_mem_percent", VFloat used_mem_percent);
    ("total_mem", VInt total_mem);
    ("used_mem", VInt used_mem);
    ("free_mem", VStr free_mem);
    ("temperature", VStr temperature) ].

(** The body of [try:] in [api_stats], which does not touch the world. *)
Definition stats_reading (m : machine) : result dict :=
  let* stdout := subprocess_run m stats_query None in
  let gpu_data := fields stdout in
  let* gpu_util := item gpu_data 0 in
  let* field1 := item gpu_data 1 in
  let* total_mem := py_int field1 in
  let* field2 := item gpu_data 2 in
  let* used_mem := py_int field2 in
  let* free_mem := item gpu_data 3 in
  let* temperature := item gpu_data 4 in
  let* used_mem_percent := percent used_mem total_mem in
  Ok (stats gpu_util used_mem_percent total_mem used_mem free_mem temperature).

Definition hung : machine := fun _ => Hangs.

(** The entry made from one line. *)
Definition entry (pid name used_memory : string) : dict :=
  [ ("pid", VStr pid); ("name", VStr name); ("used_memory", VStr used_memory) ].

(** Every entry is made of three texts. *)
Definition text_entry (d : dict) : Prop :=
  exists pid name used_memory, d = entry pid name used_memory.

(** The entry is made of the first three fields of one of the lines,
    and this line is not empty. *)
Definition entry_from (lines : list string) (d : dict) : Prop :=
  exists p f0 f1 f2 more,
    In p lines /\ p <> EmptyString /\
    PyStr.split ", " p = f0 :: f1 :: f2 :: more /\
    d = entry f0 f1 f2.

(** An entry as C8 wants it: [pid] and [used_memory] are integers. *)
Definition typed_entry (d : dict) : Prop :=
  exists (pid : Z) (name : string) (used_memory : Z),
    d = [ ("pid", VInt pid); ("name", VStr name); ("used_memory", VInt used_memory) ].

(** An answer of the tool that [api_stats] cannot use. *)
Inductive unusable (stdout : string) : Prop :=
| too_few_fields :
    (List.length (fields stdout) < 5)%nat -> unusable stdout
| total_not_a_number f :
    nth_error (fields stdout) 1 = Some f -> PyStr.int f = None -> unusable stdout
| used_not_a_number f :
    nth_error (fields stdout) 2 = Some f -> PyStr.int f = None -> unusable stdout
| total_is_zero f :
    nth_error (fields stdout) 1 = Some f -> PyStr.int f = Some 0%Z ->
    unusable stdout.


(** The sample a turn stores, if it stores one. *)
Definition told (turn : machine * float) : list Sample :=
  match reading (fst turn) with
  | Ok (u, p) => [mkSample (snd turn) u p]
  | _ => []
  end.

(** What a turn leaves on the output and the pause it takes. *)
Definition noise (turn : machine * float) : list event :=
  match reading (fst turn) with
  | Ok _ => [Slept 1]
  | Exc e => [Printed error_line e; Slept 1]
  | Stuck => []
  end.

(** The tool of the turn ends or cannot be run: it does not hang. *)
Definition ends_turn (turn : machine * float) : Prop :=
  fst turn history_query <> Hangs.

Definition is_pause (ev : event) : bool :=
  match ev with Slept _ => true | Printed _ _ => false end.

Definition is_line (ev : event) : bool :=
  match ev with Printed _ _ => true | Slept _ => false end.

(** The order of Python on floats, [a <= b]. *)
Definition float_le (a b : float) : Prop := SFleb a b = true.

(** The entry the comprehension makes from a line with three fields or
    more. *)
Definition entry_of_line (p : string) : dict :=
  entry (nth 0 (PyStr.split ", " p) EmptyString)
        (nth 1 (PyStr.split ", " p) EmptyString)
        (nth 2 (PyStr.split ", " p) EmptyString).

(** How hot a colour is. *)
Definition heat (colour : string) : nat :=
  if String.eqb colour "red" then 2
  else if String.eqb colour "orange" then 1
  else 0.

(** The answer of [fetch_gpu_general_info] when something fails. *)
Definition unknown_info : dict :=
  [ ("name", VStr "Unknown"); ("driver_version", VStr "Unknown") ].

(** * Properties *)

(** ** The embedding of [split], [int] and [/] on concrete inputs *)

Example split_fields : PyStr.split ", " "45, 8192, 4096" = ["45"; "8192"; "4096"].
Proof. reflexivity. Qed.

Example split_keeps_empty_parts : PyStr.split ", " "a, , b, " = ["a"; ""; "b"; ""].
Proof. reflexivity. Qed.

Example split_leftmost : PyStr.split ",," "a,,,b,,,,c" = ["a"; ",b"; ""; "c"].
Proof. reflexivity. Qed.

Example split_empty : PyStr.split nl "" = [""].
Proof. reflexivity. Qed.

Example strip_then_lines :
  PyStr.split nl (PyStr.strip ("  1, a, 2" ++ nl ++ nl ++ "3, b, 4" ++ nl))
  = ["1, a, 2"; ""; "3, b, 4"].
Proof. reflexivity. Qed.

Example int_accepts :
  map PyStr.int ["12"; " 12 "; "-7"; "+7"; "1_000"; "007"; "-0"]
  = [Some 12; Some 12; Some (-7); Some 7; Some 1000; Some 7; Some 0]%Z.
Proof. reflexivity. Qed.

Example int_refuses :
  map PyStr.int [""; "_1"; "1_"; "1__0"; "- 7"; "1.5"; "--1"; "N/A"; "45 %"]
  = [None; None; None; None; None; None; None; None; None].
Proof. reflexivity. Qed.

Example truediv_third :
  int_truediv 1 3 = Ok (S754_finite false 6004799503160661 (-54)).
Proof. reflexivity. Qed.

Example truediv_rounds_to_even :
  int_truediv (2 ^ 54 + 2) 1 = Ok (S754_finite false 4503599627370496 2) /\
  int_truediv (2 ^ 54 + 6) 1 = Ok (S754_finite false 4503599627370498 2).
Proof. split; reflexivity. Qed.

Example truediv_signed_zero : int_truediv 0 (-5) = Ok (S754_zero true).
Proof. reflexivity. Qed.

Example truediv_overflow : int_truediv (10 ^ 400) 1 = Exc OverflowError.
Proof. reflexivity. Qed.

Example truediv_by_zero : int_truediv 1 0 = Exc ZeroDivisionError.
Proof. reflexivity. Qed.

Example percent_of_a_third :
  percent 1 3 = Ok (S754_finite false 4691249611844266 (-47)).
Proof. reflexivity. Qed.

(** The limit on the digits of a literal: with 4300 digits the literal
    is read, with 4301 it is refused; leading zeros count and
    underscores do not. *)
Example int_digit_limit :
  PyStr.literal (run_of 4300 "1") = PyStr.digits (run_of 4300 "1") 0 false /\
  PyStr.int (run_of 4301 "1") = None /\
  PyStr.int (run_of 4301 "0") = None /\
  PyStr.int ("-" ++ run_of 4301 "9") = None /\
  PyStr.literal ("1_" ++ run_of 4299 "1")
  = PyStr.digits ("1_" ++ run_of 4299 "1") 0 false.
Proof. repeat split; reflexivity. Qed.

(** White space at the end of the output is stripped before the lines
    are cut: a last line of blanks is no line, and a last field of
    blanks is no field. *)
Example stripped_before_cut :
  fetch_gpu_processes (fun _ => Exits 0 ("1, a, 2" ++ nl ++ " " ++ nl)) world
  = (Ok [ entry "1" "a" "2" ], world) /\
  fetch_gpu_processes (fun _ => Exits 0 ("1, a, " ++ nl)) world
  = (Ok [], mkWorld history [Printed processes_error_line IndexError]).
Proof. split; reflexivity. Qed.

(** Six turns of the loop with a window of 3: two of them fail and leave
    a line on the output, four store a sample, and the oldest of these
    has left the window. *)
Example six_turns :
  let answers text := fun _ : list string => Exits 0 text in
  fetch_gpu_data_turns 3
    [ (answers "45, 8192, 4096", float_of_int 1);
      (answers "N/A", float_of_int 2);
      (answers "46, 8192, 2048", float_of_int 3);
      (answers "47, 0, 2048", float_of_int 4);
      (answers "48, 100, 25", float_of_int 5);
      (answers "49, 100, 50", float_of_int 6) ] world
  = (Ok tt,
     mkWorld
       (mkHistory [float_of_int 3; float_of_int 5; float_of_int 6]
                  [46; 48; 49]%Z
                  [float_of_int 25; float_of_int 25; float_of_int 50])
       [ Slept 1; Printed error_line ValueError; Slept 1; Slept 1;
         Printed error_line ZeroDivisionError; Slept 1; Slept 1; Slept 1 ]).
Proof. reflexivity. Qed.

(** ** [split] loses nothing: joining the parts gives the text back *)

Lemma split_from_not_nil (sep s : string) (skip : nat) :
  PyStr.split_from sep s skip <> [].
Proof.
  revert skip. induction s as [|c r IH]; intros skip; [discriminate|].
  destruct skip as [|k]; [|apply IH].
  cbn [PyStr.split_from].
  destruct (prefix sep (String c r)); [discriminate|].
  destruct (PyStr.split_from sep r 0); discriminate.
Qed.

Lemma prefix_drop (a s : string) :
  prefix a s = true -> s = (a ++ drop (String.length a) s)%string.
Proof.
  revert s. induction a as [|c a IH]; intros s H.
  - now destruct s.
  - destruct s as [|c' s]; simpl in *; [discriminate H|].
    destruct (ascii_dec c c') as [->|]; [|discriminate H].
    now rewrite <- (IH s H).
Qed.

Lemma join_cons_char (sep : string) (c : ascii) (w : string) (ws : list string) :
  PyStr.join sep (String c w :: ws) = String c (PyStr.join sep (w :: ws)).
Proof. destruct ws; reflexivity. Qed.

Lemma join_empty_head (sep : string) (ws : list string) :
  ws <> [] -> PyStr.join sep (EmptyString :: ws) = (sep ++ PyStr.join sep ws)%string.
Proof. destruct ws; [contradiction | reflexivity]. Qed.

Lemma join_split_from (sep s : string) (k : nat) :
  sep <> EmptyString ->
  PyStr.join sep (PyStr.split_from sep s k) = drop k s.
Proof.
  intros Hsep. revert k. induction s as [|c r IH]; intros k.
  - now destruct k.
  - destruct k as [|k]; [|apply IH].
    cbn [PyStr.split_from drop].
    destruct (prefix sep (String c r)) eqn:Hpre.
    + rewrite join_empty_head by apply split_from_not_nil.
      rewrite IH.
      etransitivity; [|symmetry; apply (prefix_drop _ _ Hpre)].
      destruct sep as [|c' sep]; [contradiction|].
      simpl. now rewrite Nat.sub_0_r.
    + pose proof (split_from_not_nil sep r 0) as Hne.
      specialize (IH 0%nat).
      destruct (PyStr.split_from sep r 0) as [|w ws]; [contradiction|].
      rewrite join_cons_char, IH. now destruct r.
Qed.

Lemma join_split (sep s : string) :
  sep <> EmptyString -> PyStr.join sep (PyStr.split sep s) = s.
Proof.
  intros Hsep. unfold PyStr.split. rewrite join_split_from by assumption.
  now destruct s.
Qed.

(** ** Lists: the slice [l[-n:]] *)

Section LastN.
Context {A B : Type}.

Lemma last_n_fits (n : nat) (l : list A) :
    (List.length l <= n)%nat -> last_n n l = l.
Proof.
    intros Hfit. destruct n as [|n]; [reflexivity|].
    unfold last_n. replace (List.length l - S n)%nat with 0%nat by lia.
    reflexivity.
Qed.


Lemma last_n_map (f : A -> B) (n : nat) (l : list A) :
    last_n n (map f l) = map f (last_n n l).
Proof.
    destruct n as [|n]; [reflexivity|].
    unfold last_n. rewrite length_map. apply skipn_map.
Qed.

Lemma last_n_app (n : nat) (l tl : list A) :
    (0 < n)%nat -> last_n n (last_n n l ++ tl) = last_n n (l ++ tl).
Proof.
    intros Hn. destruct n as [|n]; [lia|].
    unfold last_n.
    set (k := (List.length l - S n)%nat).
    assert (Hk : (k <= List.length l)%nat) by (unfold k; lia).
    assert (Hcut : skipn k l ++ tl = skipn k (l ++ tl)).
    { rewrite skipn_app. replace (k - List.length l)%nat with 0%nat by lia.
      reflexivity. }
    rewrite Hcut, skipn_skipn, length_skipn, length_app.
    f_equal. unfold k. lia.
Qed.

Lemma last_n_of_suffix (n : nat) (l tl : list A) :
    (0 < n <= List.length tl)%nat ->
    last_n n (l ++ tl) = skipn (List.length tl - n) tl.
Proof.
    intros [Hn Hlen]. destruct n as [|n]; [lia|].
    unfold last_n. rewrite skipn_app, length_app.
    rewrite skipn_all2 by lia. simpl. f_equal. lia.
Qed.

End LastN.

(** ** The history seen as a list of samples *)

Lemma samples_columns (xs : list Sample) : samples (columns xs) = xs.
Proof.
  unfold samples, columns. simpl.
  induction xs as [|[t u p] xs IH]; simpl; [reflexivity|].
  now rewrite IH.
Qed.

Lemma rows_columns (ts : list float) (us : list Z) (ps : list float) :
  List.length ts = List.length us -> List.length us = List.length ps ->
  columns (rows ts us ps) = mkHistory ts us ps.
Proof.
  revert us ps.
  induction ts as [|t ts IH]; intros [|u us] [|p ps] Hu Hp;
    try discriminate; [reflexivity|].
  simpl in Hu, Hp. injection Hu as Hu. injection Hp as Hp.
  specialize (IH us ps Hu Hp). unfold columns in *. simpl.
  injection IH as -> -> ->. reflexivity.
Qed.

Lemma columns_samples (h : History) : parallel h -> columns (samples h) = h.
Proof.
  destruct h as [ts us ps]. intros [Hu Hp]. now apply rows_columns.
Qed.

Lemma columns_parallel (xs : list Sample) : parallel (columns xs).
Proof. unfold parallel, columns. simpl. now rewrite !length_map. Qed.

Lemma samples_length (h : History) :
  parallel h -> List.length (samples h) = List.length (timestamps h).
Proof.
  intros Hp. rewrite <- (columns_samples h Hp) at 2.
  unfold columns. simpl. now rewrite length_map.
Qed.

(** ** What [update_history] does, in one step *)

Lemma update_history_run (cap : nat) (now : float) (u : Z) (p : float) (w : World) :
  update_history cap now u p w
  = (Ok tt, mkWorld (stored cap (hist w) (mkSample now u p)) (trace w)).
Proof.
  destruct w as [[ts us ps] tr].
  unfold update_history, stored, pushed, trimmed, trim_history,
    append_timestamps, append_gpu_util, append_used_mem_percent,
    bind, get_history, set_history, ret. simpl.
  destruct (cap <? List.length (ts ++ [now]))%nat; reflexivity.
Qed.


Lemma pushed_columns (xs : list Sample) (s : Sample) :
  pushed (columns xs) s = columns (xs ++ [s]).
Proof. unfold pushed, columns. simpl. now rewrite !map_app. Qed.

Lemma trimmed_columns (cap : nat) (xs : list Sample) :
  trimmed cap (columns xs) = columns (last_n cap xs).
Proof. unfold trimmed, columns. simpl. now rewrite !last_n_map. Qed.

Lemma stored_columns (cap : nat) (xs : list Sample) (s : Sample) :
  stored cap (columns xs) s = columns (last_n cap (xs ++ [s])).
Proof.
  unfold stored. rewrite pushed_columns.
  destruct (Nat.ltb_spec cap (List.length (timestamps (columns (xs ++ [s]))))) as [Hlt|Hge].
  - apply trimmed_columns.
  - unfold columns in Hge. simpl in Hge. rewrite length_map in Hge.
    now rewrite last_n_fits.
Qed.





(** ** What one turn of the loop does *)

Lemma item_first_line (stdout : string) :
  item (PyStr.split nl (PyStr.strip stdout)) 0 = Ok (first_line stdout).
Proof.
  unfold first_line, PyStr.split.
  destruct (PyStr.split_from nl (PyStr.strip stdout) 0) as [|l ls] eqn:E;
    [now apply split_from_not_nil in E | reflexivity].
Qed.

Ltac step r := destruct r; simpl; try reflexivity.

Lemma sample_run (cap : nat) (m : machine) (now : float) (w : World) :
  sample cap m now w =
  match reading m with
  | Ok (u, p) => update_history cap now u p w
  | Exc e => (Exc e, w)
  | Stuck => (Stuck, w)
  end.
Proof.
  unfold sample, reading, bind, pure, fields.
  step (subprocess_run m history_query None).
  rewrite item_first_line. simpl.
  step (item (PyStr.split ", " (first_line a)) 0).
  step (py_int a0).
  step (item (PyStr.split ", " (first_line a)) 1).
  step (py_int a2).
  step (item (PyStr.split ", " (first_line a)) 2).
  step (py_int a4).
  step (percent a5 a3).
Qed.

Lemma iteration_run (cap : nat) (m : machine) (now : float) (w : World) :
  iteration cap m now w =
  match reading m with
  | Ok (u, p) =>
      (Ok tt, mkWorld (stored cap (hist w) (mkSample now u p))
                      (trace w ++ [Slept 1]))
  | Exc e =>
      (Ok tt, mkWorld (hist w) (trace w ++ [Printed error_line e; Slept 1]))
  | Stuck => (Stuck, w)
  end.
Proof.
  unfold iteration, bind, try_except. rewrite sample_run.
  destruct (reading m) as [[u p]|e|]; [rewrite update_history_run| |];
    simpl; try reflexivity.
  unfold print, sleep, emit. simpl. now rewrite <- app_assoc.
Qed.

(** ** The worlds the program can be in *)

Lemma api_stats_keeps_world (m : machine) (w : World) : snd (api_stats m w) = w.
Proof.
  unfold api_stats, try_except, bind, pure, ret.
  repeat match goal with
         | |- context [match ?r with Ok _ => _ | Exc _ => _ | Stuck => _ end] =>
             destruct r; simpl
         end; reflexivity.
Qed.

Lemma fetch_gpu_processes_keeps_history (m : machine) (w : World) :
  hist (snd (fetch_gpu_processes m w)) = hist w.
Proof.
  unfold fetch_gpu_processes, try_except, bind, pure, ret, print, emit.
  destruct (subprocess_run m processes_query None); simpl; try reflexivity.
  destruct (process_entries _); reflexivity.
Qed.


(** ** A run of appends *)

Lemma update_all_run (cap : nat) (xs : list Sample) (w : World) :
  update_all cap xs w
  = (Ok tt, mkWorld (fold_left (stored cap) xs (hist w)) (trace w)).
Proof.
  revert w. induction xs as [|[t u p] xs IH]; intros w; simpl.
  - now destruct w.
  - unfold bind. rewrite update_history_run. simpl. now rewrite IH.
Qed.

Lemma fold_stored_columns (cap : nat) (xs r0 : list Sample) (x : Sample) :
  (0 < cap)%nat ->
  fold_left (stored cap) (x :: xs) (columns r0)
  = columns (last_n cap (r0 ++ x :: xs)).
Proof.
  intros Hcap. revert r0 x.
  induction xs as [|y xs IH]; intros r0 x.
  - simpl. apply stored_columns.
  - change (fold_left (stored cap) (x :: y :: xs) (columns r0))
      with (fold_left (stored cap) (y :: xs) (stored cap (columns r0) x)).
    rewrite stored_columns, IH, last_n_app by assumption.
    now rewrite <- app_assoc.
Qed.

(** ** The rolling window *)

(** C1.  After [N] or more appends to a history that keeps [N] points,
    whatever it held before, [api_data] gives exactly the last [N]
    samples appended, oldest first.  [N] is 60 in the program; the slice
    [l[-N:]] keeps everything for [N = 0], so [N] is taken positive. *)
Theorem last_appends_are_kept (N : nat) (xs : list Sample) (w : World) :
  (0 < N)%nat -> parallel (hist w) -> (N <= List.length xs)%nat ->
  exists w' h,
    update_all N xs w = (Ok tt, w') /\
    api_data w' = (Ok h, w') /\
    parallel h /\
    samples h = skipn (List.length xs - N) xs.
Proof.
  intros HN Hp Hlen.
  rewrite update_all_run.
  eexists _, _. split; [reflexivity|]. split; [reflexivity|]. simpl.
  destruct xs as [|x xs]; [simpl in Hlen; lia|].
  rewrite <- (columns_samples (hist w) Hp), fold_stored_columns by assumption.
  split; [apply columns_parallel|].
  rewrite samples_columns. apply last_n_of_suffix. lia.
Qed.

(** The example of the specification: a window of 3 and appends at the
    times 1, 2, 3, 4 leave the samples of the times 2, 3, 4. *)
Lemma last_appends_are_kept_witness :
  exists w' h,
    update_all 3 [sample_at 1; sample_at 2; sample_at 3; sample_at 4] world
      = (Ok tt, w') /\
    api_data w' = (Ok h, w') /\
    parallel h /\
    samples h = [sample_at 2; sample_at 3; sample_at 4].
Proof.
  apply (last_appends_are_kept 3
           [sample_at 1; sample_at 2; sample_at 3; sample_at 4] world).
  - lia.
  - split; reflexivity.
  - simpl. lia.
Defined.


(** ** Turns that fail *)


Lemma int_truediv_ends (a b : Z) : int_truediv a b <> Stuck.
Proof.
  unfold int_truediv. destruct (b =? 0)%Z; [discriminate|].
  destruct (SFdiv prec emax (exact_operand a) (exact_operand b)); discriminate.
Qed.

Lemma percent_ends (used_mem total_mem : Z) : percent used_mem total_mem <> Stuck.
Proof.
  unfold percent. pose proof (int_truediv_ends used_mem total_mem) as H.
  destruct (int_truediv used_mem total_mem); [discriminate|discriminate|contradiction].
Qed.

Lemma and_then_ends {A B : Type} (r : result A) (k : A -> result B) :
  r <> Stuck -> (forall a, k a <> Stuck) -> and_then r k <> Stuck.
Proof. intros Hr Hk. destruct r; simpl; [apply Hk | discriminate | contradiction]. Qed.

Lemma item_ends {A : Type} (l : list A) (i : nat) : item l i <> Stuck.
Proof. unfold item. destruct (nth_error l i); discriminate. Qed.

Lemma py_int_ends (s : string) : py_int s <> Stuck.
Proof. unfold py_int. destruct (PyStr.int s); discriminate. Qed.

Ltac ends :=
  repeat first
    [ apply item_ends | apply py_int_ends | apply percent_ends
    | discriminate
    | apply and_then_ends; [|intros ?] ].



(** An exception in the loop body comes before any change of the
    history: the world is then as it was. *)
Lemma sample_raises_before_writing (cap : nat) (m : machine) (now : float)
    (w w' : World) (e : exn) :
  sample cap m now w = (Exc e, w') -> w' = w.
Proof.
  rewrite sample_run. destruct (reading m) as [[u p]|e'|].
  - rewrite update_history_run. discriminate.
  - now intros [= _ <-].
  - discriminate.
Qed.




(** ** The percentage of memory in use *)

Lemma last_n_last {A : Type} (n : nat) (l : list A) (x d : A) :
  last (last_n n (l ++ [x])) d = x.
Proof.
  destruct n as [|n]; [apply last_last|].
  unfold last_n. rewrite skipn_app, length_app. simpl.
  replace (List.length l + 1 - S n - List.length l)%nat with 0%nat by lia.
  simpl. apply last_last.
Qed.

Lemma stored_last (cap : nat) (h : History) (s : Sample) (d : float) :
  last (used_mem_percent (stored cap h s)) d = mem_percent s.
Proof.
  unfold stored. destruct (_ <? _)%nat; simpl; [apply last_n_last | apply last_last].
Qed.

Lemma api_stats_run (m : machine) (w : World) :
  api_stats m w =
  match stats_reading m with
  | Ok d => (Ok d, w)
  | Exc e => (Ok [ ("error", VText e) ], w)
  | Stuck => (Stuck, w)
  end.
Proof.
  unfold api_stats, stats_reading, try_except, bind, pure, ret, fields.
  step (subprocess_run m stats_query None).
  rewrite item_first_line. simpl.
  step (item (PyStr.split ", " (first_line a)) 0).
  step (item (PyStr.split ", " (first_line a)) 1).
  step (py_int a1).
  step (item (PyStr.split ", " (first_line a)) 2).
  step (py_int a3).
  step (item (PyStr.split ", " (first_line a)) 3).
  step (item (PyStr.split ", " (first_line a)) 4).
  step (percent a4 a2).
Qed.

Lemma div_eucl_pair (a b : Z) : Z.div_eucl a b = (Z.div a b, Z.modulo a b).
Proof. unfold Z.div, Z.modulo. now destruct (Z.div_eucl a b). Qed.

Lemma div_eucl_shifted (m : positive) (k : Z) :
  (0 <= k)%Z -> Z.div_eucl (Z.shiftl (Zpos m) k) (Zpos m) = (2 ^ k, 0)%Z.
Proof.
  intros Hk. rewrite div_eucl_pair, Z.shiftl_mul_pow2 by assumption.
  rewrite (Z.mul_comm (Zpos m)), Z.mod_mul, Z.div_mul by discriminate.
  reflexivity.
Qed.

(** A number divided by itself is the float 1.0, whatever its size. *)
Lemma SFdiv_self (s : bool) (m : positive) :
  SFdiv 53 1024 (S754_finite s m 0) (S754_finite s m 0)
  = S754_finite false 4503599627370496 (-52).
Proof.
  unfold SFdiv, SFdiv_core_binary.
  replace (Zdigits2 (Zpos m) + 0 - (Zdigits2 (Zpos m) + 0))%Z with 0%Z by lia.
  change (IntDef.Z.min (fexp 53 1024 0) (0 - 0)) with (-53)%Z.
  change (0 - 0 - -53)%Z with 53%Z. cbv iota.
  change (IntDef.Z.div_eucl (IntDef.Z.shiftl (Z.pos m) 53) (Z.pos m))
    with (Z.div_eucl (Z.shiftl (Z.pos m) 53) (Z.pos m)).
  rewrite div_eucl_shifted by lia.
  assert (Hloc : new_location (Z.pos m) 0 = loc_Exact).
  { unfold new_location. now destruct (Z.even (Z.pos m)). }
  rewrite Hloc. destruct s; reflexivity.
Qed.

Lemma truediv_self (z : Z) :
  z <> 0%Z -> int_truediv z z = Ok (S754_finite false 4503599627370496 (-52)).
Proof.
  intros Hz. unfold int_truediv.
  destruct (Z.eqb_spec z 0) as [->|_]; [contradiction|].
  destruct z as [|m|m]; [contradiction| |]; unfold exact_operand, prec, emax;
    now rewrite SFdiv_self.
Qed.

Lemma percent_self (z : Z) : z <> 0%Z -> percent z z = Ok hundred.
Proof. intros Hz. unfold percent. now rewrite truediv_self. Qed.

Lemma percent_of_nothing (total : Z) :
  total <> 0%Z -> percent 0 total = Ok (S754_zero (total <? 0)%Z).
Proof.
  intros Hz. unfold percent, int_truediv.
  destruct (Z.eqb_spec total 0) as [->|_]; [contradiction|].
  destruct total as [|m|m]; [contradiction| |]; reflexivity.
Qed.

(** The floats written [hundred] and [fifty] are the numbers 100 and
    50. *)
Lemma hundred_and_fifty :
  (exists v, float_value hundred = Some v /\ (v == 100)%Q) /\
  (exists v, float_value fifty = Some v /\ (v == 50)%Q).
Proof. split; eexists; split; reflexivity. Qed.

(** The percentage in the terms of IEEE 754 alone: the quotient of the
    two integers taken as exact operands, rounded to the nearest float,
    then multiplied by the float 100.0 and rounded again. *)
Lemma percent_in_ieee (used total : Z) (p : float) :
  percent used total = Ok p ->
  p = SFmul 53 1024
        (SFdiv 53 1024
           match used with
           | Z0 => S754_zero false
           | Zpos m => S754_finite false m 0
           | Zneg m => S754_finite true m 0
           end
           match total with
           | Z0 => S754_zero false
           | Zpos m => S754_finite false m 0
           | Zneg m => S754_finite true m 0
           end)
        (S754_finite false 7036874417766400 (-46)).
Proof.
  unfold percent, int_truediv.
  destruct (total =? 0)%Z; [discriminate|].
  change (float_of_int 100) with (S754_finite false 7036874417766400 (-46)).
  unfold float_mul, exact_operand, prec, emax.
  destruct (SFdiv 53 1024 _ _); simpl; try discriminate; now intros [= <-].
Qed.

(** C4.  With a total that is not zero, the percentage [p] is the float
    [(used / total) * 100]: the correctly rounded quotient of the two
    integers times the float 100.0, in the arithmetic of IEEE 754.  It
    is exactly 100.0 when all the memory is used and exactly 0.0 when
    none is.  This [p] is what the sampler stores with the sample and
    what [api_stats] answers with, the total being the second field and
    the used memory the third. *)
Theorem used_mem_percent_is_used_over_total (total used : Z) (p : float) :
  total <> 0%Z -> percent used total = Ok p ->
  p = SFmul 53 1024
        (SFdiv 53 1024
           match used with
           | Z0 => S754_zero false
           | Zpos m => S754_finite false m 0
           | Zneg m => S754_finite true m 0
           end
           match total with
           | Z0 => S754_zero false
           | Zpos m => S754_finite false m 0
           | Zneg m => S754_finite true m 0
           end)
        (S754_finite false 7036874417766400 (-46)) /\
  (used = total -> p = S754_finite false 7036874417766400 (-46)) /\
  (used = 0%Z -> p = S754_zero (total <? 0)%Z) /\
  (forall cap m now w d stdout f0 f1 f2 more u,
      m history_query = Exits d stdout ->
      fields stdout = f0 :: f1 :: f2 :: more ->
      PyStr.int f0 = Some u -> PyStr.int f1 = Some total ->
      PyStr.int f2 = Some used ->
      exists w',
        iteration cap m now w = (Ok tt, w') /\
        hist w' = stored cap (hist w) (mkSample now u p) /\
        last (used_mem_percent (hist w')) (S754_zero false) = p) /\
  (forall m w d stdout g f1 f2 free temp more,
      m stats_query = Exits d stdout ->
      fields stdout = g :: f1 :: f2 :: free :: temp :: more ->
      PyStr.int f1 = Some total -> PyStr.int f2 = Some used ->
      api_stats m w = (Ok (stats g p total used free temp), w)).
Proof.
  intros Hnz Hpc.
  split; [now apply percent_in_ieee|].
  split; [intros ->; rewrite (percent_self total Hnz) in Hpc; now injection Hpc|].
  split; [intros ->; rewrite (percent_of_nothing total Hnz) in Hpc;
          now injection Hpc|].
  split.
  - intros cap m now w d out f0 f1 f2 more u Hrun Hf H0 H1 H2.
    assert (Hr : reading m = Ok (u, p)).
    { unfold reading, subprocess_run. rewrite Hrun. simpl.
      rewrite Hf. unfold item, py_int. simpl.
      rewrite H0. simpl. rewrite H1. simpl. rewrite H2. simpl.
      rewrite Hpc. reflexivity. }
    rewrite iteration_run, Hr. eexists. split; [reflexivity|].
    simpl. split; [reflexivity | apply stored_last].
  - intros m w d out g f1 f2 free temp more Hrun Hf H1 H2.
    rewrite api_stats_run.
    unfold stats_reading, subprocess_run. rewrite Hrun. simpl.
    rewrite Hf. unfold item, py_int. simpl.
    rewrite H1. simpl. rewrite H2. simpl. rewrite Hpc. reflexivity.
Qed.

(** The example of the specification: 4096 used of 8192 is the float
    of mantissa 7036874417766400 and exponent -47, which is 50.0; the
    sampler stores it and [api_stats] answers with it. *)
Lemma used_mem_percent_is_used_over_total_witness :
  percent 4096 8192 = Ok (S754_finite false 7036874417766400 (-47)) /\
  (exists v, float_value (S754_finite false 7036874417766400 (-47)) = Some v
             /\ (v == 50)%Q) /\
  (exists w',
      iteration window (fun _ => Exits 0 "45, 8192, 4096") (float_of_int 1) world
      = (Ok tt, w') /\
      hist w' = stored window (hist world)
                  (mkSample (float_of_int 1) 45
                            (S754_finite false 7036874417766400 (-47))) /\
      last (used_mem_percent (hist w')) (S754_zero false)
      = S754_finite false 7036874417766400 (-47)) /\
  api_stats (fun _ => Exits 0 "45, 8192, 4096, 4096, 60") world
  = (Ok (stats "45" (S754_finite false 7036874417766400 (-47)) 8192 4096
               "4096" "60"), world).
Proof.
  assert (Hnz : 8192%Z <> 0%Z) by discriminate.
  assert (Hpc : percent 4096 8192
                = Ok (S754_finite false 7036874417766400 (-47)))
    by reflexivity.
  destruct (used_mem_percent_is_used_over_total 8192 4096
              (S754_finite false 7036874417766400 (-47)) Hnz Hpc)
    as (_ & _ & _ & Hstore & Hstats).
  split; [exact Hpc|].
  split; [eexists; split; reflexivity|].
  split.
  - apply (Hstore window (fun _ => Exits 0 "45, 8192, 4096") (float_of_int 1)
             world 0%nat "45, 8192, 4096" "45" "8192" "4096" [] 45%Z);
      reflexivity.
  - apply (Hstats (fun _ => Exits 0 "45, 8192, 4096, 4096, 60") world 0%nat
             "45, 8192, 4096, 4096, 60" "45" "8192" "4096" "4096" "60" []);
      reflexivity.
Defined.

(** ** The tool that never ends *)

Lemma timeout_would_raise (m : machine) (cmd : list string) (limit : nat) :
  m cmd = Hangs -> subprocess_run m cmd (Some limit) = Exc TimeoutExpired.
Proof. intros Hm. unfold subprocess_run. now rewrite Hm. Qed.

(** C5 fails on the code: neither call of [subprocess.run] sets a
    [timeout].  With a tool that never ends, the turn of the sampler
    does not end (nothing is printed, no pause is reached) and
    [api_stats] gives the caller no value, hence no error value. *)
Lemma hung_tool_never_times_out :
  iteration window hung (float_of_int 1) world = (Stuck, world) /\
  api_stats hung world = (Stuck, world) /\
  ~ (exists e w', iteration window hung (float_of_int 1) world = (Ok tt, w')
                  /\ In (Printed error_line e) (trace w')) /\
  ~ (exists e w', api_stats hung world = (Ok [ ("error", VText e) ], w')).
Proof.
  repeat split; try reflexivity.
  - intros (e & w' & H & _). discriminate H.
  - intros (e & w' & H). discriminate H.
Qed.


(** ** The list of processes *)

Lemma fetch_gpu_processes_run (m : machine) (w : World) :
  fetch_gpu_processes m w =
  match subprocess_run m processes_query None with
  | Ok stdout =>
      match process_entries (PyStr.split nl (PyStr.strip stdout)) with
      | Ok entries => (Ok entries, w)
      | Exc e =>
          (Ok [], mkWorld (hist w) (trace w ++ [Printed processes_error_line e]))
      | Stuck => (Stuck, w)
      end
  | Exc e => (Ok [], mkWorld (hist w) (trace w ++ [Printed processes_error_line e]))
  | Stuck => (Stuck, w)
  end.
Proof.
  unfold fetch_gpu_processes, try_except, bind, pure, ret, print, emit.
  destruct (subprocess_run m processes_query None); reflexivity.
Qed.

Lemma fetch_gpu_processes_never_raises (m : machine) (w : World) (e : exn) :
  fst (fetch_gpu_processes m w) <> Exc e.
Proof.
  rewrite fetch_gpu_processes_run.
  destruct (subprocess_run m processes_query None); simpl; try discriminate.
  destruct (process_entries _); discriminate.
Qed.

(** C6.  When the tool prints nothing, [fetch_gpu_processes] and
    [api_processes] give the empty list: a value, with nothing printed
    and nothing raised. *)
Theorem no_output_gives_no_processes (m : machine) (d : nat) (w : World) :
  m processes_query = Exits d EmptyString ->
  fetch_gpu_processes m w = (Ok [], w) /\
  api_processes m w = (Ok [], w).
Proof.
  intros Hm. unfold api_processes. rewrite fetch_gpu_processes_run.
  unfold subprocess_run. rewrite Hm. split; reflexivity.
Qed.

Lemma no_output_gives_no_processes_witness :
  fetch_gpu_processes (fun _ => Exits 0 EmptyString) world = (Ok [], world) /\
  api_processes (fun _ => Exits 0 EmptyString) world = (Ok [], world).
Proof.
  apply (no_output_gives_no_processes (fun _ => Exits 0 EmptyString) 0 world).
  reflexivity.
Defined.

Lemma process_entries_text (lines : list string) (entries : list dict) :
  process_entries lines = Ok entries -> Forall text_entry entries.
Proof.
  revert entries. induction lines as [|p rest IH]; intros entries; simpl.
  - intros [= <-]. constructor.
  - destruct (PyStr.truthy p); [|apply IH].
    unfold item.
    destruct (PyStr.split ", " p) as [|pid [|name [|mem more]]]; simpl;
      try discriminate.
    destruct (process_entries rest) as [es| |]; simpl; try discriminate.
    intros [= <-]. constructor; [now exists pid, name, mem | now apply IH].
Qed.

(** C8 fails on the code: the fields are stored as the texts cut out of
    the line, no [int] is applied to them. *)
Lemma process_fields_are_not_integers :
  fetch_gpu_processes (fun _ => Exits 0 "1234, python, 512") world
    = (Ok [ entry "1234" "python" "512" ], world) /\
  ~ Forall typed_entry [ entry "1234" "python" "512" ].
Proof.
  split; [reflexivity|].
  intros H. inversion H as [|x l (pid & name & mem & Heq) _]; subst.
  discriminate Heq.
Qed.

Lemma entry_from_more (p : string) (lines : list string) (d : dict) :
  entry_from lines d -> entry_from (p :: lines) d.
Proof.
  intros (q & f0 & f1 & f2 & more & Hin & Hne & Hsplit & ->).
  exists q, f0, f1, f2, more. repeat split; auto. now right.
Qed.

Lemma process_entries_from (lines : list string) (entries : list dict) :
  process_entries lines = Ok entries -> Forall (entry_from lines) entries.
Proof.
  revert entries. induction lines as [|p rest IH]; intros entries; simpl.
  - intros [= <-]. constructor.
  - destruct p as [|c p]; simpl PyStr.truthy; cbv iota.
    + intros H. apply IH in H.
      eapply Forall_impl; [|exact H]. intros d. apply entry_from_more.
    + unfold item.
      destruct (PyStr.split ", " (String c p)) as [|f0 [|f1 [|f2 more]]] eqn:Hs;
        simpl; try discriminate.
      destruct (process_entries rest) as [es| |]; simpl; try discriminate.
      intros [= <-]. constructor.
      * exists (String c p), f0, f1, f2, more.
        repeat split; auto; [now left | discriminate].
      * eapply Forall_impl; [|exact (IH es eq_refl)].
        intros d. apply entry_from_more.
Qed.

(** C8 as the code has it: every element of the list is a dictionary
    with the keys [pid], [name] and [used_memory], each bound to a
    text: the first, the second and the third of the fields that
    [", "] separates in a line, not empty, of the stripped output.  No
    field is made an integer. *)
Theorem process_fields_are_texts (m : machine) (w w' : World) (entries : list dict) :
  fetch_gpu_processes m w = (Ok entries, w') ->
  Forall text_entry entries /\
  (entries = [] \/
   exists d stdout,
     m processes_query = Exits d stdout /\
     Forall (entry_from (PyStr.split nl (PyStr.strip stdout))) entries).
Proof.
  rewrite fetch_gpu_processes_run. unfold subprocess_run.
  destruct (m processes_query) as [d out|e|] eqn:Hm.
  - destruct (process_entries _) as [es|e|] eqn:Hes.
    + intros [= <- _]. split; [now apply process_entries_text in Hes|].
      right. exists d, out. split; [reflexivity|].
      now apply process_entries_from.
    + intros [= <- _]. split; [constructor | now left].
    + discriminate.
  - intros [= <- _]. split; [constructor | now left].
  - discriminate.
Qed.

Lemma process_fields_are_texts_witness :
  fetch_gpu_processes (fun _ => Exits 0 "1234, python, 512") world
  = (Ok [ entry "1234" "python" "512" ], world) /\
  Forall text_entry [ entry "1234" "python" "512" ] /\
  ([ entry "1234" "python" "512" ] = [] \/
   exists d stdout,
     Exits 0 "1234, python, 512" = Exits d stdout /\
     Forall (entry_from (PyStr.split nl (PyStr.strip stdout)))
            [ entry "1234" "python" "512" ]).
Proof.
  split; [reflexivity|].
  apply (process_fields_are_texts (fun _ => Exits 0 "1234, python, 512")
           world world [ entry "1234" "python" "512" ]).
  reflexivity.
Defined.

(** ** Lines that cannot be cut in three *)

Lemma process_entries_only_index_errors (lines : list string) (e : exn) :
  process_entries lines = Exc e -> e = IndexError.
Proof.
  induction lines as [|p rest IH]; simpl; [discriminate|].
  destruct (PyStr.truthy p); [|exact IH].
  unfold item.
  destruct (PyStr.split ", " p) as [|pid [|name [|mem more]]]; simpl;
    try congruence.
  destruct (process_entries rest); simpl; try discriminate.
  intros H. apply IH. congruence.
Qed.

Lemma process_entries_never_stuck (lines : list string) :
  process_entries lines <> Stuck.
Proof.
  induction lines as [|p rest IH]; simpl; [discriminate|].
  destruct (PyStr.truthy p); [|exact IH].
  unfold item.
  destruct (PyStr.split ", " p) as [|pid [|name [|mem more]]]; simpl;
    try discriminate.
  destruct (process_entries rest); simpl; try discriminate. contradiction.
Qed.

Lemma short_line_raises (lines : list string) (p : string) :
  In p lines -> p <> EmptyString ->
  (List.length (PyStr.split ", " p) < 3)%nat ->
  process_entries lines = Exc IndexError.
Proof.
  intros Hin Hne Hshort.
  induction lines as [|l rest IH]; [contradiction|].
  simpl. destruct Hin as [->|Hin].
  - destruct p as [|c p]; [contradiction|]. simpl PyStr.truthy. cbv iota.
    unfold item.
    destruct (PyStr.split ", " (String c p)) as [|f0 [|f1 [|f2 more]]];
      simpl in *; try reflexivity; lia.
  - specialize (IH Hin).
    destruct (PyStr.truthy l); [|exact IH]. rewrite IH. unfold item.
    destruct (PyStr.split ", " l) as [|f0 [|f1 [|f2 more]]]; reflexivity.
Qed.

(** C10 fails on the code for an empty line: the comprehension passes
    over a line that is empty before it cuts it, so such a line, which
    has one field only, does not spoil the others. *)
Lemma empty_line_is_passed_over :
  In EmptyString
     (PyStr.split nl (PyStr.strip ("1, a, 2" ++ nl ++ nl ++ "3, b, 4"))) /\
  (List.length (PyStr.split ", " EmptyString) < 3)%nat /\
  fetch_gpu_processes (fun _ => Exits 0 ("1, a, 2" ++ nl ++ nl ++ "3, b, 4")) world
    = (Ok [ entry "1" "a" "2"; entry "3" "b" "4" ], world).
Proof.
  split; [right; left; reflexivity|]. split; [simpl; lia | reflexivity].
Qed.

(** C10 as the code has it.  The lines are those of the output once
    stripped of the white space at its two ends and cut at the
    newlines.  One of these lines that is not empty and has fewer than
    three fields makes the whole answer the empty list, after the error
    is printed; the well-formed lines are lost with it. *)
Theorem short_line_empties_the_list (m : machine) (d : nat) (stdout p : string)
    (w : World) :
  m processes_query = Exits d stdout ->
  In p (PyStr.split nl (PyStr.strip stdout)) ->
  p <> EmptyString ->
  (List.length (PyStr.split ", " p) < 3)%nat ->
  fetch_gpu_processes m w
  = (Ok [], mkWorld (hist w)
                    (trace w ++ [Printed processes_error_line IndexError])).
Proof.
  intros Hm Hin Hne Hshort.
  rewrite fetch_gpu_processes_run. unfold subprocess_run. rewrite Hm.
  now rewrite (short_line_raises _ p Hin Hne Hshort).
Qed.

Lemma short_line_empties_the_list_witness :
  fetch_gpu_processes (fun _ => Exits 0 ("1, a, 2" ++ nl ++ "3, b")) world
  = (Ok [], mkWorld history [Printed processes_error_line IndexError]).
Proof.
  apply (short_line_empties_the_list
           (fun _ => Exits 0 ("1, a, 2" ++ nl ++ "3, b")) 0
           ("1, a, 2" ++ nl ++ "3, b") "3, b" world).
  - reflexivity.
  - right; left; reflexivity.
  - discriminate.
  - simpl. lia.
Defined.

(** ** Errors of [api_stats] *)





(** * More properties of the loop *)

Lemma reading_hangs (m : machine) :
  reading m = Stuck <-> m history_query = Hangs.
Proof.
  split.
  - intros Hr. destruct (m history_query) as [d out|e|] eqn:Hm; [| |reflexivity];
      exfalso; revert Hr; unfold reading, subprocess_run; rewrite Hm;
      [ends | discriminate].
  - intros Hm. unfold reading, subprocess_run. now rewrite Hm.
Qed.

Lemma turns_app (cap : nat) (a b : list (machine * float)) (w : World) :
  fetch_gpu_data_turns cap (a ++ b) w
  = match fetch_gpu_data_turns cap a w with
    | (Ok _, w1) => fetch_gpu_data_turns cap b w1
    | (Exc e, w1) => (Exc e, w1)
    | (Stuck, w1) => (Stuck, w1)
    end.
Proof.
  revert w. induction a as [|[m now] a IH]; intros w; simpl.
  - reflexivity.
  - unfold bind. destruct (iteration cap m now w) as [[[]|e|] w1];
      [apply IH|reflexivity|reflexivity].
Qed.

(** The whole effect of turns none of which hangs. *)
Lemma turns_run (cap : nat) (turns : list (machine * float)) (w : World) :
  Forall ends_turn turns ->
  fetch_gpu_data_turns cap turns w
  = (Ok tt, mkWorld (fold_left (stored cap) (flat_map told turns) (hist w))
                    (trace w ++ flat_map noise turns)).
Proof.
  intros Hends. revert w.
  induction Hends as [|[m now] turns Hm _ IH]; intros w; simpl.
  - rewrite app_nil_r. now destruct w.
  - unfold bind. rewrite iteration_run. unfold told, noise. simpl.
    destruct (reading m) as [[u p]|e|] eqn:Hr.
    + rewrite IH. simpl. now rewrite <- app_assoc.
    + rewrite IH. simpl. now rewrite <- app_assoc.
    + apply reading_hangs in Hr. contradiction.
Qed.

Lemma fold_stored_bounded (cap : nat) (xs r0 : list Sample) :
  (0 < cap)%nat -> (List.length r0 <= cap)%nat ->
  fold_left (stored cap) xs (columns r0) = columns (last_n cap (r0 ++ xs)).
Proof.
  intros Hcap Hfit. destruct xs as [|x xs].
  - simpl. now rewrite app_nil_r, last_n_fits.
  - now apply fold_stored_columns.
Qed.

(** X1.  After turns none of which hangs, the history holds the last
    [cap] of the samples it held followed by the samples of the turns
    that succeeded, in order: a turn that fails leaves a gap and
    nothing else. *)
Theorem history_after_turns (cap : nat) (turns : list (machine * float))
    (w : World) :
  (0 < cap)%nat -> parallel (hist w) -> bounded cap (hist w) ->
  Forall ends_turn turns ->
  exists w',
    fetch_gpu_data_turns cap turns w = (Ok tt, w') /\
    parallel (hist w') /\
    samples (hist w') = last_n cap (samples (hist w) ++ flat_map told turns).
Proof.
  intros Hcap Hp Hb Hends.
  rewrite (turns_run cap turns w Hends). eexists. split; [reflexivity|].
  simpl. rewrite <- (columns_samples (hist w) Hp) at 1 2.
  rewrite fold_stored_bounded.
  - split; [apply columns_parallel | apply samples_columns].
  - assumption.
  - rewrite samples_length by assumption. apply Hb.
Qed.

Lemma history_after_turns_witness :
  exists w',
    fetch_gpu_data_turns 2
      [ (fun _ => Exits 0 "45, 8192, 4096", float_of_int 1);
        (fun _ => Exits 0 "N/A", float_of_int 2);
        (fun _ => Fails (RunError "no tool"), float_of_int 3);
        (fun _ => Exits 0 "46, 8192, 2048", float_of_int 4);
        (fun _ => Exits 0 "47, 100, 50", float_of_int 5) ] world
    = (Ok tt, w') /\
    parallel (hist w') /\
    samples (hist w')
    = [ mkSample (float_of_int 4) 46 (float_of_int 25);
        mkSample (float_of_int 5) 47 (float_of_int 50) ].
Proof.
  apply (history_after_turns 2
           [ (fun _ => Exits 0 "45, 8192, 4096", float_of_int 1);
             (fun _ => Exits 0 "N/A", float_of_int 2);
             (fun _ => Fails (RunError "no tool"), float_of_int 3);
             (fun _ => Exits 0 "46, 8192, 2048", float_of_int 4);
             (fun _ => Exits 0 "47, 100, 50", float_of_int 5) ] world).
  - lia.
  - split; reflexivity.
  - unfold bounded. simpl. lia.
  - repeat constructor; discriminate.
Defined.

Lemma filter_noise_pauses (turns : list (machine * float)) :
  Forall ends_turn turns ->
  List.length (filter is_pause (flat_map noise turns)) = List.length turns.
Proof.
  induction 1 as [|[m now] turns Hm _ IH]; [reflexivity|].
  simpl. rewrite filter_app, length_app, IH. unfold noise. simpl.
  destruct (reading m) as [[u p]|e|] eqn:Hr; [reflexivity|reflexivity|].
  apply reading_hangs in Hr. contradiction.
Qed.

Lemma filter_noise_lines (turns : list (machine * float)) :
  Forall ends_turn turns ->
  (List.length (filter is_line (flat_map noise turns))
   + List.length (flat_map told turns) = List.length turns)%nat.
Proof.
  induction 1 as [|[m now] turns Hm _ IH]; [reflexivity|].
  simpl. rewrite filter_app, !length_app. unfold noise, told in *. simpl.
  destruct (reading m) as [[u p]|e|] eqn:Hr; simpl; [lia|lia|].
  apply reading_hangs in Hr. contradiction.
Qed.

(** X2.  Turns none of which hangs only add to the output: one pause
    for each turn, whether it stored a sample or not, and one printed
    line for each turn that stored none. *)
Theorem one_pause_per_turn (cap : nat) (turns : list (machine * float))
    (w : World) :
  Forall ends_turn turns ->
  exists w' added,
    fetch_gpu_data_turns cap turns w = (Ok tt, w') /\
    trace w' = trace w ++ added /\
    List.length (filter is_pause added) = List.length turns /\
    (List.length (filter is_line added) + List.length (flat_map told turns)
     = List.length turns)%nat.
Proof.
  intros Hends. rewrite (turns_run cap turns w Hends).
  eexists _, _. split; [reflexivity|]. split; [reflexivity|].
  split; [now apply filter_noise_pauses | now apply filter_noise_lines].
Qed.

Lemma one_pause_per_turn_witness :
  exists w' added,
    fetch_gpu_data_turns window
      [ (fun _ => Exits 0 "45, 8192, 4096", float_of_int 1);
        (fun _ => Exits 0 "N/A", float_of_int 2) ] world
    = (Ok tt, w') /\
    trace w' = trace world ++ added /\
    List.length (filter is_pause added) = 2%nat /\
    (List.length (filter is_line added) + 1 = 2)%nat.
Proof.
  apply (one_pause_per_turn window
           [ (fun _ => Exits 0 "45, 8192, 4096", float_of_int 1);
             (fun _ => Exits 0 "N/A", float_of_int 2) ] world).
  repeat constructor; discriminate.
Defined.

(** X3.  No exception leaves the loop, whatever the tool does in each
    turn: the loop goes through all its turns or waits for ever in
    one. *)
Theorem loop_never_raises (cap : nat) (turns : list (machine * float))
    (w : World) (e : exn) :
  fst (fetch_gpu_data_turns cap turns w) <> Exc e.
Proof.
  revert w. induction turns as [|[m now] turns IH]; intros w; simpl.
  - discriminate.
  - unfold bind. rewrite iteration_run.
    destruct (reading m) as [[u p]|e'|]; [apply IH | apply IH | discriminate].
Qed.

(** X4.  A tool that hangs stops the sampler for good: the turns before
    it have their effect, the hanging turn and all the turns after it
    have none. *)
Theorem hang_stops_the_loop (cap : nat) (before after : list (machine * float))
    (m : machine) (now : float) (w : World) :
  Forall ends_turn before -> m history_query = Hangs ->
  exists w',
    fetch_gpu_data_turns cap before w = (Ok tt, w') /\
    fetch_gpu_data_turns cap (before ++ (m, now) :: after) w = (Stuck, w').
Proof.
  intros Hends Hm. rewrite turns_app, (turns_run cap before w Hends).
  eexists. split; [reflexivity|].
  simpl. unfold bind. rewrite iteration_run.
  apply reading_hangs in Hm. now rewrite Hm.
Qed.

Lemma hang_stops_the_loop_witness :
  exists w',
    fetch_gpu_data_turns window
      [ (fun _ => Exits 0 "45, 8192, 4096", float_of_int 1) ] world = (Ok tt, w') /\
    fetch_gpu_data_turns window
      ([ (fun _ => Exits 0 "45, 8192, 4096", float_of_int 1) ]
       ++ (hung, float_of_int 2)
       :: [ (fun _ => Exits 0 "46, 8192, 4096", float_of_int 3) ]) world
    = (Stuck, w').
Proof.
  apply (hang_stops_the_loop window
           [ (fun _ => Exits 0 "45, 8192, 4096", float_of_int 1) ]
           [ (fun _ => Exits 0 "46, 8192, 4096", float_of_int 3) ]
           hung (float_of_int 2) world).
  - repeat constructor; discriminate.
  - reflexivity.
Defined.

(** ** The order of the timestamps *)


Section SortedLists.
Context {A : Type} (R : A -> A -> Prop).

Lemma sorted_without (l r : list A) (x : A) :
  StronglySorted R (l ++ x :: r) -> StronglySorted R (l ++ r).
Proof.
  induction l as [|a l IH]; simpl; intros Hs.
  - now inversion Hs.
  - inversion Hs as [|? ? Hl Ha]; subst. constructor; [now apply IH|].
    apply Forall_app in Ha as [Hal Har]. apply Forall_app. split; [assumption|].
    now inversion Har.
Qed.

Lemma sorted_skipn (n : nat) (l : list A) :
  StronglySorted R l -> StronglySorted R (skipn n l).
Proof.
  revert l. induction n as [|n IH]; intros l Hs; [assumption|].
  destruct l as [|a l]; [assumption|]. simpl. apply IH. now inversion Hs.
Qed.

Lemma sorted_front (l r : list A) :
  StronglySorted R (l ++ r) -> StronglySorted R l.
Proof.
  induction l as [|a l IH]; simpl; intros Hs; [constructor|].
  inversion Hs as [|? ? Hl Ha]; subst. constructor; [now apply IH|].
  now apply Forall_app in Ha as [Hal _].
Qed.

Lemma sorted_last_n (n : nat) (l r : list A) :
  StronglySorted R (l ++ r) -> StronglySorted R (last_n n l ++ r).
Proof.
  intros Hs. destruct n as [|n]; [assumption|]. unfold last_n.
  replace (skipn (List.length l - S n) l ++ r)
    with (skipn (List.length l - S n) (l ++ r)); [now apply sorted_skipn|].
  rewrite skipn_app.
  replace (List.length l - S n - List.length l)%nat with 0%nat by lia.
  reflexivity.
Qed.
End SortedLists.

Lemma stored_timestamps (cap : nat) (h : History) (s : Sample) :
  timestamps (stored cap h s) = timestamps h ++ [at_time s] \/
  timestamps (stored cap h s) = last_n cap (timestamps h ++ [at_time s]).
Proof. unfold stored. destruct (_ <? _)%nat; simpl; auto. Qed.

(** X5.  If the clock never goes back, the timestamps of the history
    are in order: when the timestamps held followed by the times the
    clock shows in the coming turns are ordered, so are the timestamps
    after these turns, whichever of them fail or hang. *)
Theorem timestamps_stay_ordered (cap : nat) (turns : list (machine * float))
    (w : World) :
  StronglySorted float_le (timestamps (hist w) ++ map snd turns) ->
  StronglySorted float_le
    (timestamps (hist (snd (fetch_gpu_data_turns cap turns w)))).
Proof.
  revert w. induction turns as [|[m now] turns IH]; intros w Hs; simpl in *.
  - now rewrite app_nil_r in Hs.
  - unfold bind. rewrite iteration_run.
    destruct (reading m) as [[u p]|e|].
    + apply IH. simpl.
      change (timestamps (hist w) ++ now :: map snd turns)
        with (timestamps (hist w) ++ [now] ++ map snd turns) in Hs.
      rewrite app_assoc in Hs.
      destruct (stored_timestamps cap (hist w) (mkSample now u p)) as [-> | ->];
        simpl; [assumption | now apply sorted_last_n].
    + apply IH. simpl. now apply sorted_without in Hs.
    + simpl. now apply sorted_front in Hs.
Qed.

Lemma timestamps_stay_ordered_witness :
  StronglySorted float_le
    (timestamps
       (hist (snd (fetch_gpu_data_turns 1
                     [ (fun _ => Exits 0 "45, 8192, 4096", float_of_int 1);
                       (fun _ => Exits 0 "N/A", float_of_int 2);
                       (fun _ => Exits 0 "46, 8192, 4096", float_of_int 3) ]
                     world)))).
Proof.
  apply (timestamps_stay_ordered 1
           [ (fun _ => Exits 0 "45, 8192, 4096", float_of_int 1);
             (fun _ => Exits 0 "N/A", float_of_int 2);
             (fun _ => Exits 0 "46, 8192, 4096", float_of_int 3) ] world).
  simpl. repeat constructor.
Defined.

(** * More properties of the list of processes *)

Lemma process_entries_well_formed (lines : list string) :
  (forall p, In p lines -> p <> EmptyString ->
             (3 <= List.length (PyStr.split ", " p))%nat) ->
  process_entries lines = Ok (map entry_of_line (filter PyStr.truthy lines)).
Proof.
  induction lines as [|p rest IH]; intros Hwf; [reflexivity|].
  assert (Hrest : process_entries rest
                  = Ok (map entry_of_line (filter PyStr.truthy rest))).
  { apply IH. intros q Hq. apply Hwf. now right. }
  simpl. destruct p as [|c p]; [exact Hrest|].
  simpl PyStr.truthy. cbv iota.
  assert (Hlen : (3 <= List.length (PyStr.split ", " (String c p)))%nat).
  { apply Hwf; [now left | discriminate]. }
  unfold entry_of_line, item. simpl map.
  destruct (PyStr.split ", " (String c p)) as [|f0 [|f1 [|f2 more]]];
    simpl in Hlen; try lia.
  simpl. now rewrite Hrest.
Qed.

(** X6.  The lines are those of the output once stripped of the white
    space at its two ends and cut at the newlines.  When each of these
    lines that is not empty has three fields or more, the list has one
    entry for each such line, in the order of the output, made of the
    first three fields of the line; the empty lines and the further
    fields are dropped and nothing is printed. *)
Theorem well_formed_lines_give_entries (m : machine) (d : nat)
    (stdout : string) (w : World) :
  m processes_query = Exits d stdout ->
  (forall p, In p (PyStr.split nl (PyStr.strip stdout)) -> p <> EmptyString ->
             (3 <= List.length (PyStr.split ", " p))%nat) ->
  fetch_gpu_processes m w
  = (Ok (map entry_of_line
           (filter PyStr.truthy (PyStr.split nl (PyStr.strip stdout)))), w).
Proof.
  intros Hm Hwf. rewrite fetch_gpu_processes_run.
  unfold subprocess_run. rewrite Hm.
  now rewrite (process_entries_well_formed _ Hwf).
Qed.

Lemma well_formed_lines_give_entries_witness :
  fetch_gpu_processes
    (fun _ => Exits 0 ("1, a, 2" ++ nl ++ nl ++ "3, b, c, 4" ++ nl)) world
  = (Ok [ entry "1" "a" "2"; entry "3" "b" "c" ], world).
Proof.
  apply (well_formed_lines_give_entries
           (fun _ => Exits 0 ("1, a, 2" ++ nl ++ nl ++ "3, b, c, 4" ++ nl)) 0
           ("1, a, 2" ++ nl ++ nl ++ "3, b, c, 4" ++ nl) world).
  - reflexivity.
  - intros p [<-|[<-|[<-|[]]]] Hne; simpl; try lia. contradiction.
Defined.

(** X7.  Whenever the tool ends or cannot be run, [fetch_gpu_processes]
    gives a list and leaves the history alone; either it prints
    nothing, or it prints one line and the list is empty.  A tool that
    cannot be run gives the empty list. *)
Theorem processes_are_always_a_list (m : machine) (w : World) :
  m processes_query <> Hangs ->
  exists entries added,
    fetch_gpu_processes m w
    = (Ok entries, mkWorld (hist w) (trace w ++ added)) /\
    (added = [] \/
     entries = [] /\ exists e, added = [Printed processes_error_line e]) /\
    (forall e, m processes_query = Fails e ->
               entries = [] /\ added = [Printed processes_error_line e]).
Proof.
  intros Hm. rewrite fetch_gpu_processes_run. unfold subprocess_run.
  destruct (m processes_query) as [d out|e|] eqn:Hq; [| |contradiction].
  - pose proof (process_entries_never_stuck (PyStr.split nl (PyStr.strip out))) as Hns.
    destruct (process_entries _) as [es|e|]; [| |contradiction].
    + exists es, []. rewrite app_nil_r. destruct w.
      repeat split; auto; discriminate.
    + exists [], [Printed processes_error_line e].
      repeat split; eauto; discriminate.
  - exists [], [Printed processes_error_line e].
    split; [reflexivity|]. split; [eauto|]. now intros e' [= <-].
Qed.

Lemma processes_are_always_a_list_witness :
  exists entries added,
    fetch_gpu_processes (fun _ => Fails (RunError "no tool")) world
    = (Ok entries, mkWorld (hist world) (trace world ++ added)) /\
    (added = [] \/
     entries = [] /\ exists e, added = [Printed processes_error_line e]) /\
    (forall e, Fails (RunError "no tool") = Fails e ->
               entries = [] /\ added = [Printed processes_error_line e]).
Proof.
  apply (processes_are_always_a_list (fun _ => Fails (RunError "no tool")) world).
  discriminate.
Defined.

(** * Properties of [fetch_gpu_general_info] *)

Lemma fetch_gpu_general_info_run (m : machine) (w : World) :
  fetch_gpu_general_info m w =
  match subprocess_run m info_query None with
  | Ok stdout =>
      match PyStr.split ", " (PyStr.strip stdout) with
      | name :: driver_version :: _ =>
          (Ok [ ("name", VStr name); ("driver_version", VStr driver_version) ], w)
      | _ =>
          (Ok unknown_info,
           mkWorld (hist w) (trace w ++ [Printed info_error_line IndexError]))
      end
  | Exc e =>
      (Ok unknown_info, mkWorld (hist w) (trace w ++ [Printed info_error_line e]))
  | Stuck => (Stuck, w)
  end.
Proof.
  unfold fetch_gpu_general_info, try_except, bind, pure, ret, print, emit, item.
  destruct (subprocess_run m info_query None) as [out|e|]; try reflexivity.
  destruct (PyStr.split ", " (PyStr.strip out)) as [|name [|driver more]];
    reflexivity.
Qed.

(** X8.  When the tool cannot be run, or its output once stripped has
    no [", "] in it (the empty output is such a one),
    [fetch_gpu_general_info] prints one line and answers with the name
    and the driver version both ["Unknown"]; it raises nothing. *)
Theorem general_info_falls_back (m : machine) (w : World) :
  (exists e, m info_query = Fails e) \/
  (exists d stdout, m info_query = Exits d stdout /\
     (List.length (PyStr.split ", " (PyStr.strip stdout)) < 2)%nat) ->
  exists e,
    fetch_gpu_general_info m w
    = (Ok unknown_info,
       mkWorld (hist w) (trace w ++ [Printed info_error_line e])).
Proof.
  intros [[e Hm] | (d & out & Hm & Hlen)];
    rewrite fetch_gpu_general_info_run; unfold subprocess_run; rewrite Hm.
  - now exists e.
  - exists IndexError.
    destruct (PyStr.split ", " (PyStr.strip out)) as [|name [|driver more]];
      simpl in Hlen; [reflexivity | reflexivity | lia].
Qed.

Lemma general_info_falls_back_witness :
  exists e,
    fetch_gpu_general_info (fun _ => Exits 0 EmptyString) world
    = (Ok unknown_info, mkWorld (hist world)
                                (trace world ++ [Printed info_error_line e])).
Proof.
  apply (general_info_falls_back (fun _ => Exits 0 EmptyString) world).
  right. exists 0%nat, EmptyString. split; [reflexivity | simpl; lia].
Defined.

Lemma str_app_nil_r (s : string) : (s ++ "")%string = s.
Proof. induction s as [|c s IH]; simpl; [reflexivity | now rewrite IH]. Qed.

Lemma str_app_assoc (a b c : string) :
  ((a ++ b) ++ c)%string = (a ++ (b ++ c))%string.
Proof. induction a as [|x a IH]; simpl; [reflexivity | now rewrite IH]. Qed.

Lemma prefix_app (a b : string) : prefix a (a ++ b) = true.
Proof.
  induction a as [|c a IH]; simpl; [now destruct b|].
  destruct (ascii_dec c c); [assumption | contradiction].
Qed.

Lemma join_head (sep w : string) (ws : list string) :
  exists rest, PyStr.join sep (w :: ws) = (w ++ rest)%string.
Proof.
  destruct ws as [|w' ws].
  - exists EmptyString. simpl. now rewrite str_app_nil_r.
  - now exists (sep ++ PyStr.join sep (w' :: ws))%string.
Qed.

Lemma nothing_occurs_in_empty (sep : string) :
  sep <> EmptyString -> ~ occurs sep EmptyString.
Proof.
  intros Hsep (a & b & H). destruct a; [|discriminate].
  destruct sep; [contradiction | discriminate].
Qed.

(** The first part that [split] gives has no separator in it: it is the
    text before the first separator. *)
Lemma split_head_clean (sep s w : string) (ws : list string) :
  sep <> EmptyString -> PyStr.split sep s = w :: ws -> ~ occurs sep w.
Proof.
  intros Hsep. unfold PyStr.split. revert w ws.
  induction s as [|c r IH]; intros w ws Hsplit.
  - injection Hsplit as <- _. now apply nothing_occurs_in_empty.
  - cbn [PyStr.split_from] in Hsplit.
    destruct (prefix sep (String c r)) eqn:Hpre.
    + injection Hsplit as <- _. now apply nothing_occurs_in_empty.
    + destruct (PyStr.split_from sep r 0) as [|w' ws'] eqn:Hr;
        [now apply split_from_not_nil in Hr|].
      injection Hsplit as <- _. intros (a & b & Hocc).
      destruct a as [|c' a]; simpl in Hocc.
      * pose proof (join_split_from sep r 0 Hsep) as Hjoin.
        rewrite Hr in Hjoin. destruct (join_head sep w' ws') as [rest Hrest].
        rewrite Hrest in Hjoin.
        assert (Hwhole : String c r = (sep ++ (b ++ rest))%string).
        { rewrite <- str_app_assoc, <- Hocc. simpl. f_equal.
          destruct r; simpl in Hjoin; now rewrite Hjoin. }
        rewrite Hwhole, prefix_app in Hpre. discriminate.
      * injection Hocc as _ Hocc. apply (IH w' ws' eq_refl). now exists a, b.
Qed.

(** X9.  When the output once stripped is cut by [", "] in two parts or
    more, the name is the first part and the driver version the second,
    and nothing is printed.  The stripped output is the name, [", "]
    and what remains, and there is no [", "] in the name: the name is
    the text before the first [", "].  The output is not cut into
    lines. *)
Theorem general_info_reads_two_parts (m : machine) (d : nat)
    (stdout name driver_version : string) (more : list string) (w : World) :
  m info_query = Exits d stdout ->
  PyStr.split ", " (PyStr.strip stdout) = name :: driver_version :: more ->
  fetch_gpu_general_info m w
  = (Ok [ ("name", VStr name); ("driver_version", VStr driver_version) ], w) /\
  PyStr.strip stdout
  = (name ++ ", " ++ PyStr.join ", " (driver_version :: more))%string /\
  ~ occurs ", " name.
Proof.
  intros Hm Hparts. split; [|split].
  - rewrite fetch_gpu_general_info_run. unfold subprocess_run.
    now rewrite Hm, Hparts.
  - rewrite <- (join_split ", " (PyStr.strip stdout)) at 1 by discriminate.
    now rewrite Hparts.
  - apply (split_head_clean ", " (PyStr.strip stdout) name
             (driver_version :: more)); [discriminate | assumption].
Qed.

Lemma general_info_reads_two_parts_witness :
  fetch_gpu_general_info
    (fun _ => Exits 0 ("Tesla T4, 535.54" ++ nl ++ "Tesla T4, 535.54" ++ nl)) world
  = (Ok [ ("name", VStr "Tesla T4");
          ("driver_version", VStr ("535.54" ++ nl ++ "Tesla T4")) ], world) /\
  PyStr.strip ("Tesla T4, 535.54" ++ nl ++ "Tesla T4, 535.54" ++ nl)
  = ("Tesla T4" ++ ", "
     ++ PyStr.join ", " [ "535.54" ++ nl ++ "Tesla T4"; "535.54" ])%string /\
  ~ occurs ", " "Tesla T4".
Proof.
  apply (general_info_reads_two_parts
           (fun _ => Exits 0 ("Tesla T4, 535.54" ++ nl ++ "Tesla T4, 535.54" ++ nl))
           0 ("Tesla T4, 535.54" ++ nl ++ "Tesla T4, 535.54" ++ nl)
           "Tesla T4" ("535.54" ++ nl ++ "Tesla T4") [ "535.54" ] world);
    reflexivity.
Defined.

(** * Only the sampler writes the history *)

(** X10.  No request changes the history: [api_data], [api_stats],
    [api_processes] and [fetch_gpu_general_info] leave it as it is, on
    every path, failures included. *)
Theorem requests_leave_the_history (m : machine) (w : World) :
  hist (snd (api_data w)) = hist w /\
  hist (snd (api_stats m w)) = hist w /\
  hist (snd (api_processes m w)) = hist w /\
  hist (snd (fetch_gpu_general_info m w)) = hist w.
Proof.
  split; [reflexivity|]. split; [now rewrite api_stats_keeps_world|].
  split; [apply fetch_gpu_processes_keeps_history|].
  rewrite fetch_gpu_general_info_run.
  destruct (subprocess_run m info_query None) as [out|e|]; try reflexivity.
  destruct (PyStr.split ", " (PyStr.strip out)) as [|name [|driver more]];
    reflexivity.
Qed.

(** * Answers that can be used *)

Lemma percent_errors (used_mem total_mem : Z) (e : exn) :
  percent used_mem total_mem = Exc e ->
  (total_mem = 0%Z /\ e = ZeroDivisionError) \/
  (total_mem <> 0%Z /\ e = OverflowError).
Proof.
  unfold percent, int_truediv.
  destruct (Z.eqb_spec total_mem 0) as [->|Hnz]; simpl.
  - intros [= <-]. now left.
  - destruct (SFdiv prec emax (exact_operand used_mem) (exact_operand total_mem));
      simpl; try discriminate.
    intros [= <-]. now right.
Qed.

(** X11.  The conditions under which [api_stats] fails are the ones
    listed and an overflow, no other.  When the first line has five
    fields or more, the second and the third are numbers and the total
    is not zero, [api_stats] answers with the statistics, the
    utilisation, the free memory and the temperature being passed as
    the texts they are, unless the quotient is too large for a float;
    the answer is then the error of this overflow. *)
Theorem usable_answer_gives_stats (m : machine) (d : nat) (stdout : string)
    (w : World) :
  m stats_query = Exits d stdout -> ~ unusable stdout ->
  exists g f1 f2 free temp more total used,
    fields stdout = g :: f1 :: f2 :: free :: temp :: more /\
    PyStr.int f1 = Some total /\ PyStr.int f2 = Some used /\
    total <> 0%Z /\
    ((exists p, percent used total = Ok p /\
                api_stats m w = (Ok (stats g p total used free temp), w)) \/
     (percent used total = Exc OverflowError /\
      api_stats m w = (Ok [ ("error", VText OverflowError) ], w))).
Proof.
  intros Hm Hu.
  destruct (fields stdout) as [|g [|f1 [|f2 [|free [|temp more]]]]] eqn:Hf;
    try (exfalso; apply Hu, too_few_fields; rewrite Hf; simpl; lia).
  destruct (PyStr.int f1) as [total|] eqn:H1;
    [|exfalso; apply Hu, (total_not_a_number _ f1); [now rewrite Hf | assumption]].
  destruct (PyStr.int f2) as [used|] eqn:H2;
    [|exfalso; apply Hu, (used_not_a_number _ f2); [now rewrite Hf | assumption]].
  destruct (Z.eq_dec total 0) as [->|Hnz];
    [exfalso; apply Hu, (total_is_zero _ f1); [now rewrite Hf | assumption]|].
  exists g, f1, f2, free, temp, more, total, used.
  repeat (split; [reflexivity || assumption|]).
  assert (Hrun : api_stats m w =
                 match percent used total with
                 | Ok p => (Ok (stats g p total used free temp), w)
                 | Exc e => (Ok [ ("error", VText e) ], w)
                 | Stuck => (Stuck, w)
                 end).
  { rewrite api_stats_run. unfold stats_reading, subprocess_run.
    rewrite Hm. simpl. rewrite Hf. unfold item, py_int. simpl.
    rewrite H1. simpl. rewrite H2. simpl.
    destruct (percent used total); reflexivity. }
  destruct (percent used total) as [p|e|] eqn:Hp.
  - left. now exists p.
  - right. destruct (percent_errors _ _ _ Hp) as [[H0 _]|[_ ->]];
      [contradiction | now split].
  - now apply percent_ends in Hp.
Qed.

Lemma usable_answer_gives_stats_witness :
  exists g f1 f2 free temp more total used,
    fields "45, 8192, 4096, 4096, N/A" = g :: f1 :: f2 :: free :: temp :: more /\
    PyStr.int f1 = Some total /\ PyStr.int f2 = Some used /\
    total <> 0%Z /\
    ((exists p, percent used total = Ok p /\
                api_stats (fun _ => Exits 0 "45, 8192, 4096, 4096, N/A") world
                = (Ok (stats g p total used free temp), world)) \/
     (percent used total = Exc OverflowError /\
      api_stats (fun _ => Exits 0 "45, 8192, 4096, 4096, N/A") world
      = (Ok [ ("error", VText OverflowError) ], world))).
Proof.
  apply (usable_answer_gives_stats
           (fun _ => Exits 0 "45, 8192, 4096, 4096, N/A") 0
           "45, 8192, 4096, 4096, N/A" world).
  - reflexivity.
  - intros [Hlen | f Hnth Hint | f Hnth Hint | f Hnth Hint];
      vm_compute in Hlen || (vm_compute in Hnth; injection Hnth as <-);
      try lia; discriminate.
Defined.

(** X12.  The same for a turn of the sampler: when the first line has
    three fields or more, all three numbers, and the total is not zero,
    the turn stores the sample made of the clock, the first field and
    the percentage, unless the quotient is too large for a float; the
    turn then prints the error and stores nothing. *)
Theorem well_formed_answer_is_stored (cap : nat) (m : machine) (now : float)
    (d : nat) (stdout : string) (w : World) :
  m history_query = Exits d stdout -> ~ malformed stdout ->
  exists f0 f1 f2 more u total used,
    fields stdout = f0 :: f1 :: f2 :: more /\
    PyStr.int f0 = Some u /\ PyStr.int f1 = Some total /\
    PyStr.int f2 = Some used /\ total <> 0%Z /\
    ((exists p, percent used total = Ok p /\
                iteration cap m now w
                = (Ok tt, mkWorld (stored cap (hist w) (mkSample now u p))
                                  (trace w ++ [Slept 1]))) \/
     (percent used total = Exc OverflowError /\
      iteration cap m now w
      = (Ok tt, mkWorld (hist w)
                        (trace w ++ [Printed error_line OverflowError; Slept 1])))).
Proof.
  intros Hm Hu.
  destruct (fields stdout) as [|f0 [|f1 [|f2 more]]] eqn:Hf;
    try (exfalso; apply Hu, missing_field; rewrite Hf; simpl; lia).
  destruct (PyStr.int f0) as [u|] eqn:H0;
    [|exfalso; apply Hu, (non_numeric_field _ 0 f0); [lia | now rewrite Hf | assumption]].
  destruct (PyStr.int f1) as [total|] eqn:H1;
    [|exfalso; apply Hu, (non_numeric_field _ 1 f1); [lia | now rewrite Hf | assumption]].
  destruct (PyStr.int f2) as [used|] eqn:H2;
    [|exfalso; apply Hu, (non_numeric_field _ 2 f2); [lia | now rewrite Hf | assumption]].
  destruct (Z.eq_dec total 0) as [->|Hnz];
    [exfalso; apply Hu, (zero_total _ f1); [now rewrite Hf | assumption]|].
  exists f0, f1, f2, more, u, total, used.
  repeat (split; [reflexivity || assumption|]).
  assert (Hr : reading m =
               match percent used total with
               | Ok p => Ok (u, p)
               | Exc e => Exc e
               | Stuck => Stuck
               end).
  { unfold reading, subprocess_run. rewrite Hm. simpl. rewrite Hf.
    unfold item, py_int. simpl. rewrite H0. simpl. rewrite H1. simpl.
    rewrite H2. simpl. destruct (percent used total); reflexivity. }
  rewrite iteration_run, Hr.
  destruct (percent used total) as [p|e|] eqn:Hp.
  - left. now exists p.
  - right. destruct (percent_errors _ _ _ Hp) as [[Hz _]|[_ ->]];
      [contradiction | now split].
  - now apply percent_ends in Hp.
Qed.

Lemma well_formed_answer_is_stored_witness :
  exists f0 f1 f2 more u total used,
    fields "45, 8192, 4096" = f0 :: f1 :: f2 :: more /\
    PyStr.int f0 = Some u /\ PyStr.int f1 = Some total /\
    PyStr.int f2 = Some used /\ total <> 0%Z /\
    ((exists p, percent used total = Ok p /\
                iteration window (fun _ => Exits 0 "45, 8192, 4096")
                          (float_of_int 1) world
                = (Ok tt, mkWorld (stored window (hist world)
                                          (mkSample (float_of_int 1) u p))
                                  (trace world ++ [Slept 1]))) \/
     (percent used total = Exc OverflowError /\
      iteration window (fun _ => Exits 0 "45, 8192, 4096") (float_of_int 1) world
      = (Ok tt, mkWorld (hist world)
                        (trace world
                         ++ [Printed error_line OverflowError; Slept 1])))).
Proof.
  apply (well_formed_answer_is_stored window
           (fun _ => Exits 0 "45, 8192, 4096") (float_of_int 1) 0
           "45, 8192, 4096" world).
  - reflexivity.
  - intros [Hlen | i f Hi Hnth Hint | f Hnth Hint].
    + vm_compute in Hlen. lia.
    + destruct i as [|[|[|i]]]; [| | |lia];
        vm_compute in Hnth; injection Hnth as <-; discriminate.
    + vm_compute in Hnth. injection Hnth as <-. discriminate.
Defined.

(** * The colours of the page *)

Lemma above_threshold (mc : positive) (ec : Z) (a b : float) :
  SFleb (S754_finite false mc ec) a = true -> SFleb a b = true ->
  SFleb (S754_finite false mc ec) b = true.
Proof.
  unfold SFleb, SFcompare.
  destruct a as [sa|sa| |sa ma ea]; destruct b as [sb|sb| |sb mb eb];
    try destruct sa; try destruct sb; try discriminate; try reflexivity.
  change (Pos.compare_cont Eq mc ma) with (Pos.compare mc ma).
  change (Pos.compare_cont Eq ma mb) with (Pos.compare ma mb).
  change (Pos.compare_cont Eq mc mb) with (Pos.compare mc mb).
  destruct (Z.compare_spec ec ea), (Z.compare_spec ea eb), (Z.compare_spec ec eb);
    try discriminate; try reflexivity; try lia; subst;
    destruct (Pos.compare_spec mc ma), (Pos.compare_spec ma mb),
      (Pos.compare_spec mc mb);
    try discriminate; try reflexivity; lia.
Qed.

Lemma js_ge_upward (c a b : float) :
  (exists mc ec, c = S754_finite false mc ec) ->
  js_ge a c = true -> SFleb a b = true -> js_ge b c = true.
Proof. intros (mc & ec & ->). unfold js_ge. apply above_threshold. Qed.

Lemma threshold_is_positive (c : float) :
  In c [ float_of_int 50; float_of_int 70; float_of_int 80; float_of_int 85 ] ->
  exists mc ec, c = S754_finite false mc ec.
Proof.
  intros [<-|[<-|[<-|[<-|[]]]]]; eexists _, _; reflexivity.
Qed.

(** A colour chosen by two thresholds does not cool down when the
    number goes up. *)
Lemma two_thresholds_monotone (hi lo a b : float) :
  (exists mc ec, hi = S754_finite false mc ec) ->
  (exists mc ec, lo = S754_finite false mc ec) ->
  SFleb a b = true ->
  (heat (if js_ge a hi then "red" else if js_ge a lo then "orange" else "green")
   <= heat (if js_ge b hi then "red" else if js_ge b lo then "orange" else "green"))%nat.
Proof.
  intros Hhi Hlo Hab.
  destruct (js_ge a hi) eqn:Ha1.
  - now rewrite (js_ge_upward hi a b Hhi Ha1 Hab).
  - destruct (js_ge a lo) eqn:Ha2.
    + rewrite (js_ge_upward lo a b Hlo Ha2 Hab).
      destruct (js_ge b hi); vm_compute; lia.
    + change (heat "green") with 0%nat. lia.
Qed.

(** X13.  The colours follow the numbers: when a number is at most
    another, in the order of floats, its colour is not hotter, green
    being below orange and orange below red.  This holds for the
    memory, for the utilisation and for the temperature, whatever
    [parseFloat] makes of the texts. *)
Theorem colours_follow_the_numbers (parseFloat : string -> float) :
  (forall a b, SFleb a b = true ->
               (heat (getColorForMem a) <= heat (getColorForMem b))%nat) /\
  (forall u v, SFleb (parseFloat u) (parseFloat v) = true ->
               (heat (getColorForUtil parseFloat u)
                <= heat (getColorForUtil parseFloat v))%nat) /\
  (forall t t', SFleb (parseFloat t) (parseFloat t') = true ->
                (heat (getColorForTemp parseFloat t)
                 <= heat (getColorForTemp parseFloat t'))%nat).
Proof.
  repeat split; intros; unfold getColorForMem, getColorForUtil, getColorForTemp;
    apply two_thresholds_monotone; try assumption;
    apply threshold_is_positive; simpl; auto.
Qed.

(** A number that is NaN is shown green by the three functions. *)
Lemma nan_is_green (parseFloat : string -> float) (u : string) :
  getColorForMem S754_nan = "green" /\
  (parseFloat u = S754_nan ->
   getColorForUtil parseFloat u = "green" /\
   getColorForTemp parseFloat u = "green").
Proof.
  split; [reflexivity|]. intros Hnan.
  unfold getColorForUtil, getColorForTemp. rewrite Hnan. split; reflexivity.
Qed.

(** * What is read of an answer *)

Lemma item_firstn {A : Type} (n i : nat) (l : list A) :
  (i < n)%nat -> item l i = item (firstn n l) i.
Proof.
  intros Hi. unfold item. rewrite nth_error_firstn.
  destruct (Nat.ltb_spec i n); [reflexivity | lia].
Qed.

Lemma reading_of_fields (m : machine) (d : nat) (stdout : string) :
  m history_query = Exits d stdout ->
  reading m =
  let gpu_data := firstn 3 (fields stdout) in
  let* field0 := item gpu_data 0 in
  let* gpu_util := py_int field0 in
  let* field1 := item gpu_data 1 in
  let* total_mem := py_int field1 in
  let* field2 := item gpu_data 2 in
  let* used_mem := py_int field2 in
  let* used_mem_percent := percent used_mem total_mem in
  Ok (gpu_util, used_mem_percent).
Proof.
  intros Hm. unfold reading, subprocess_run. rewrite Hm.
  cbn [and_then]. cbv zeta.
  now rewrite <- !(item_firstn 3) by lia.
Qed.

Lemma stats_reading_of_fields (m : machine) (d : nat) (stdout : string) :
  m stats_query = Exits d stdout ->
  stats_reading m =
  let gpu_data := firstn 5 (fields stdout) in
  let* gpu_util := item gpu_data 0 in
  let* field1 := item gpu_data 1 in
  let* total_mem := py_int field1 in
  let* field2 := item gpu_data 2 in
  let* used_mem := py_int field2 in
  let* free_mem := item gpu_data 3 in
  let* temperature := item gpu_data 4 in
  let* used_mem_percent := percent used_mem total_mem in
  Ok (stats gpu_util used_mem_percent total_mem used_mem free_mem temperature).
Proof.
  intros Hm. unfold stats_reading, subprocess_run. rewrite Hm.
  cbn [and_then]. cbv zeta.
  now rewrite <- !(item_firstn 5) by lia.
Qed.

(** X14.  Of an answer of the tool, a turn of the sampler reads the
    first three fields of the first line and [api_stats] the first five:
    with the clock showing the same time, two answers that agree on
    these fields, whatever their other fields and their other lines,
    have the same effect and give the same result. *)
Theorem only_the_first_fields_count (cap : nat) (m m' : machine)
    (d : nat) (stdout stdout' : string) (now : float) (w : World) :
  (m history_query = Exits d stdout -> m' history_query = Exits d stdout' ->
   firstn 3 (fields stdout) = firstn 3 (fields stdout') ->
   iteration cap m now w = iteration cap m' now w) /\
  (m stats_query = Exits d stdout -> m' stats_query = Exits d stdout' ->
   firstn 5 (fields stdout) = firstn 5 (fields stdout') ->
   api_stats m w = api_stats m' w).
Proof.
  split; intros Hm Hm' Hsame.
  - rewrite !iteration_run, (reading_of_fields m d stdout Hm),
      (reading_of_fields m' d stdout' Hm'). now rewrite Hsame.
  - rewrite !api_stats_run, (stats_reading_of_fields m d stdout Hm),
      (stats_reading_of_fields m' d stdout' Hm'). now rewrite Hsame.
Qed.

Lemma only_the_first_fields_count_witness :
  iteration window (fun _ => Exits 0 "45, 8192, 4096") (float_of_int 1) world
  = iteration window
      (fun _ => Exits 0 ("45, 8192, 4096, 17" ++ nl ++ "90, 100, 99"))
      (float_of_int 1) world.
Proof.
  apply (proj1 (only_the_first_fields_count window
                  (fun _ => Exits 0 "45, 8192, 4096")
                  (fun _ => Exits 0 ("45, 8192, 4096, 17" ++ nl ++ "90, 100, 99"))
                  0 "45, 8192, 4096"
                  ("45, 8192, 4096, 17" ++ nl ++ "90, 100, 99")
                  (float_of_int 1) world)); reflexivity.
Defined.

Lemma colours_follow_the_numbers_witness :
  (heat (getColorForMem (float_of_int 40))
   <= heat (getColorForMem (float_of_int 90)))%nat.
Proof.
  apply (proj1 (colours_follow_the_numbers (fun _ => S754_nan))). reflexivity.
Defined.

(** * What a request can see while the sampler writes *)

Lemma trim_history_in_steps (cap : nat) :
  trim_history cap
  = (trim_timestamps cap ;; trim_gpu_util cap ;; trim_used_mem_percent cap).
Proof. reflexivity. Qed.











(** * No invocation has a timeout *)

(** C5 as the code has it.  [subprocess.run] is called without
    [timeout] at its four places: the sampler, [api_stats],
    [fetch_gpu_processes] and [fetch_gpu_general_info].  At each of
    them, if the tool never ends the call never returns: the turn of the
    sampler does not end and the request gives no value.  If the tool
    cannot be run, the sampler prints the error and goes on, [api_stats]
    answers with the error, and the two others print it and answer with
    their fallback.  If the tool ends, the turn and the request end. *)
Theorem invocations_wait_without_limit (cap : nat) (m : machine)
    (now : float) (w : World) :
  match m history_query with
  | Hangs => iteration cap m now w = (Stuck, w)
  | Fails e =>
      iteration cap m now w
      = (Ok tt, mkWorld (hist w) (trace w ++ [Printed error_line e; Slept 1]))
  | Exits _ _ => exists w', iteration cap m now w = (Ok tt, w')
  end /\
  match m stats_query with
  | Hangs => api_stats m w = (Stuck, w)
  | Fails e => api_stats m w = (Ok [ ("error", VText e) ], w)
  | Exits _ _ => exists answer, api_stats m w = (Ok answer, w)
  end /\
  match m processes_query with
  | Hangs =>
      fetch_gpu_processes m w = (Stuck, w) /\ api_processes m w = (Stuck, w)
  | Fails e =>
      fetch_gpu_processes m w
      = (Ok [], mkWorld (hist w) (trace w ++ [Printed processes_error_line e]))
  | Exits _ _ => exists entries w', fetch_gpu_processes m w = (Ok entries, w')
  end /\
  match m info_query with
  | Hangs => fetch_gpu_general_info m w = (Stuck, w)
  | Fails e =>
      fetch_gpu_general_info m w
      = (Ok unknown_info,
         mkWorld (hist w) (trace w ++ [Printed info_error_line e]))
  | Exits _ _ => exists info w', fetch_gpu_general_info m w = (Ok info, w')
  end.
Proof.
  split; [|split; [|split]].
  - rewrite iteration_run.
    destruct (m history_query) as [d out|e|] eqn:Hm.
    + assert (Hns : reading m <> Stuck).
      { unfold reading, subprocess_run. rewrite Hm. ends. }
      destruct (reading m) as [[u p]|e|]; [eauto|eauto|contradiction].
    + unfold reading, subprocess_run. now rewrite Hm.
    + unfold reading, subprocess_run. now rewrite Hm.
  - rewrite api_stats_run.
    destruct (m stats_query) as [d out|e|] eqn:Hm.
    + assert (Hns : stats_reading m <> Stuck).
      { unfold stats_reading, subprocess_run. rewrite Hm. ends. }
      destruct (stats_reading m) as [a|e|]; [eauto|eauto|contradiction].
    + unfold stats_reading, subprocess_run. now rewrite Hm.
    + unfold stats_reading, subprocess_run. now rewrite Hm.
  - unfold api_processes. rewrite fetch_gpu_processes_run. unfold subprocess_run.
    destruct (m processes_query) as [d out|e|]; [|reflexivity|now split].
    pose proof (process_entries_never_stuck (PyStr.split nl (PyStr.strip out))) as Hns.
    destruct (process_entries _) as [es|e|]; [eauto|eauto|contradiction].
  - rewrite fetch_gpu_general_info_run. unfold subprocess_run.
    destruct (m info_query) as [d out|e|]; [|reflexivity|reflexivity].
    destruct (PyStr.split ", " (PyStr.strip out)) as [|name [|driver more]]; eauto.
Qed.
